(** * The local submitter of SQLFlow: [runtime/local/submitter.py]

    The module is a dispatch layer: five entry points that pick a backend
    routine from an estimator name or from the type tag of a stored model
    and forward their arguments.  This file embeds the five functions with
    the Python operations they use (string methods, insertion-ordered
    dictionaries, exceptions, calls to the collaborating modules and
    [print]), and proves the properties of the dispatch. *)

From Stdlib Require Import String Ascii List Bool Arith NArith Lia.
Import ListNotations.
Local Open Scope list_scope.
Local Open Scope string_scope.

(** ** Python [str] methods

    A string is a sequence of characters with code points below 256
    (ASCII and Latin-1), which is what [ascii] holds. *)
Module Str.

(** [c.lower()] for one character.  Below 256 the upper-case letters are
    A-Z (65-90) and the Latin-1 capitals 192-222 without the multiplication
    sign (215); each has its lower-case form 32 places further. *)
Definition lower_char (c : ascii) : ascii :=
  let n := N_of_ascii c in
  if (((65 <=? n) && (n <=? 90)) ||
      ((192 <=? n) && (n <=? 222) && negb (n =? 215)))%N
  then ascii_of_N (n + 32)
  else c.

(** [s.lower()] *)
Fixpoint lower (s : string) : string :=
  match s with
  | EmptyString => EmptyString
  | String c s' => String (lower_char c) (lower s')
  end.

(** [s.startswith(prefix)] *)
Fixpoint startswith (s prefix : string) {struct prefix} : bool :=
  match prefix with
  | EmptyString => true
  | String p prefix' =>
      match s with
      | EmptyString => false
      | String c s' => Ascii.eqb c p && startswith s' prefix'
      end
  end.

(** [sub in s] *)
Fixpoint contains (s sub : string) : bool :=
  startswith s sub ||
  match s with
  | EmptyString => false
  | String _ s' => contains s' sub
  end.

(** The scan of [s.replace(old, new)] for a non-empty [old]: left to right,
    every occurrence of [old] that does not overlap an earlier one is
    replaced.  [skip] counts the characters of a matched occurrence that
    are still to be passed over. *)
Fixpoint replace_from (skip : nat) (old new s : string) : string :=
  match s with
  | EmptyString => EmptyString
  | String c s' =>
      match skip with
      | S k => replace_from k old new s'
      | O =>
          if startswith s old
          then new ++ replace_from (String.length old - 1) old new s'
          else String c (replace_from 0 old new s')
      end
  end.

(** With an empty [old], Python puts [new] before every character and at
    the end. *)
Fixpoint interleave (new s : string) : string :=
  match s with
  | EmptyString => EmptyString
  | String c s' => String c (new ++ interleave new s')
  end.

(** [s.replace(old, new)] *)
Definition replace (s old new : string) : string :=
  match old with
  | EmptyString => new ++ interleave new s
  | String _ _ => replace_from 0 old new s
  end.

(** The scan of [s.split(sep)] for a non-empty [sep]; the head of the
    result is the piece being read. *)
Fixpoint split_from (skip : nat) (sep s : string) : list string :=
  match s with
  | EmptyString => [EmptyString]
  | String c s' =>
      match skip with
      | S k => split_from k sep s'
      | O =>
          if startswith s sep
          then EmptyString :: split_from (String.length sep - 1) sep s'
          else
            match split_from 0 sep s' with
            | piece :: pieces => String c piece :: pieces
            | [] => [String c EmptyString]
            end
      end
  end.

(** [s.split(sep)] for a non-empty separator (Python raises [ValueError]
    on an empty one; the submitter splits on a literal comma only). *)
Definition split (s sep : string) : list string := split_from 0 sep s.

(** [sep.join(pieces)] *)
Fixpoint join (sep : string) (pieces : list string) : string :=
  match pieces with
  | [] => EmptyString
  | [p] => p
  | p :: rest => p ++ sep ++ join sep rest
  end.

End Str.

(** ** Python [dict]

    A dictionary keeps its keys in insertion order and holds each key once;
    it is an association list, read from the front. *)
Module Dict.

Definition t (V : Type) : Type := list (string * V).

(** [d.get(k)]: [None] when the key is absent. *)
Fixpoint get {V : Type} (d : t V) (k : string) : option V :=
  match d with
  | [] => None
  | (k', v) :: d' => if String.eqb k' k then Some v else get d' k
  end.

(** [d.get(k, default)] *)
Definition get_default {V : Type} (d : t V) (k : string) (default : V) : V :=
  match get d k with
  | Some v => v
  | None => default
  end.

(** [d[k] = v]: a key already present keeps its place and takes the new
    value, a new key goes to the end. *)
Fixpoint set {V : Type} (d : t V) (k : string) (v : V) : t V :=
  match d with
  | [] => [(k, v)]
  | (k', v') :: d' =>
      if String.eqb k' k then (k', v) :: d' else (k', v') :: set d' k v
  end.

(** The keys in iteration order, as [for k in d] visits them. *)
Definition keys {V : Type} (d : t V) : list string := map fst d.

(** What every Python dictionary satisfies: no key twice. *)
Definition wf {V : Type} (d : t V) : Prop := NoDup (keys d).

End Dict.

(** ** Exceptions and results *)

(** The exceptions the submitter raises itself, and [ExternalError] for
    whatever a collaborating module raises. *)
Inductive exn : Type :=
| NotImplementedError (msg : string)
| ValueError (msg : string)
| AssertionError
| IndexError
| KeyError (key : string)
| ExternalError (what : string).

(** How a call ends: it returns a value or raises. *)
Inductive outcome (A : Type) : Type :=
| Return (a : A)
| Raise (e : exn).
Arguments Return {A} a.
Arguments Raise {A} e.

(** ** The collaborating modules

    The submitter imports the model registry, the backend routines and the
    result writer from other modules of the runtime.  Their types and
    functions are parameters of the development. *)

(** Modelled from the spec: a field descriptor of a feature column; the
    submitter reads its name only. *)
Module FieldDesc.
Record t : Type := { name : string }.
End FieldDesc.

(** Modelled from the spec: the feature-column capability,
    [get_field_desc()] giving the column's field descriptors. *)
Module FeatureColumn.
Record t : Type := { get_field_desc : list FieldDesc.t }.
End FeatureColumn.

(** The values stored as model metadata: [None], a string (the train
    statement), or a feature column (the label). *)
Inductive MetaValue : Type :=
| MetaNone
| MetaStr (s : string)
| MetaFeatureColumn (fc : FeatureColumn.t).

(** [bool(v)]: [None] and the empty string are false, an object is true. *)
Definition truthy (v : MetaValue) : bool :=
  match v with
  | MetaNone => false
  | MetaStr s => negb (String.eqb s "")
  | MetaFeatureColumn _ => true
  end.

(** [isinstance(v, FeatureColumn)] *)
Definition isinstance_FeatureColumn (v : MetaValue) : bool :=
  match v with
  | MetaFeatureColumn _ => true
  | _ => false
  end.

(** The two train routines the submitter imports. *)
Inductive TrainRoutine : Type := xgboost_train | tf_train.

(** The base types of the runtime: the state of everything outside the
    submitter (database, model store), the Python objects it passes on
    without looking inside, and the estimator type tags with their
    equality test and string form. *)
Class Base : Type := {
  World : Type;
  PyObject : Type;
  EstimatorType : Type;
  XGBOOST : EstimatorType;
  type_eqb : EstimatorType -> EstimatorType -> bool;
  type_eqb_eq : forall a b, type_eqb a b = true <-> a = b;
  type_str : EstimatorType -> string
}.

Section Runtime.
Context {B : Base}.

(** Modelled from the spec: a model descriptor has a type tag and carries
    metadata key-value pairs. *)
Record Model : Type := {
  model_type : EstimatorType;
  model_meta : Dict.t MetaValue
}.

(** [model.get_type()] *)
Definition get_type (model : Model) : EstimatorType := model_type model.

(** [model.get_meta(key)]: [None] for a key the metadata lacks. *)
Definition get_meta (model : Model) (key : string) : MetaValue :=
  Dict.get_default (model_meta model) key MetaNone.

(** A value passed by keyword to a train routine. *)
Inductive Value : Type :=
| VStr (s : string)
| VDict (d : Dict.t PyObject)
| VObj (o : PyObject).

(** A row of the result set of show-train. *)
Definition Row : Type := (string * MetaValue)%type.

(** The calls the submitter makes to its collaborators, each with its
    arguments in the order of the call; a train routine takes keyword
    arguments, a list of names with their values. *)
Inductive Call : Type :=
| call_load_from_db (datasource model_name : string)
| call_read_metadata_from_db (datasource model_name : string)
| call_train (train_func : TrainRoutine) (kwargs : list (string * Value))
| call_xgboost_pred (datasource select result_table : string)
    (label_column : PyObject) (model : Model)
| call_xgboost_evaluate (datasource select result_table : string)
    (model : Model) (pred_label_name : string)
    (validation_metrics : list string)
| call_xgboost_explain (datasource select explainer : string)
    (summary_params : Dict.t PyObject) (result_table : string)
    (model : Model)
| call_dump_strings (result_set : list Row) (header : list string).

(** What the collaborators do: each takes its arguments and the world and
    gives an outcome and the world after the call.  The result writer, as
    the specification describes it, formats the rows and the header it is
    given: its lines are a function of the two. *)
Class Collaborators : Type := {
  Model_load_from_db : string -> string -> World -> outcome Model * World;
  read_metadata_from_db :
    string -> string -> World -> outcome (Dict.t MetaValue) * World;
  train : TrainRoutine -> list (string * Value) -> World ->
          outcome PyObject * World;
  xgboost_pred : string -> string -> string -> PyObject -> Model -> World ->
                 outcome PyObject * World;
  xgboost_evaluate : string -> string -> string -> Model -> string ->
                     list string -> World -> outcome PyObject * World;
  xgboost_explain : string -> string -> string -> Dict.t PyObject ->
                    string -> Model -> World -> outcome PyObject * World;
  ProtobufWriter_dump_strings :
    list Row -> list string -> outcome (list string)
}.

(** ** The state and the monad of a run

    A run threads the world, the lines printed so far and the log of the
    calls made to collaborators.  A raised exception leaves the state as
    it was when it was raised. *)
Record State : Type := {
  world : World;
  stdout : list string;
  calls : list Call
}.

Definition M (A : Type) : Type := State -> outcome A * State.

Definition ret {A : Type} (a : A) : M A := fun st => (Return a, st).

Definition raise {A : Type} (e : exn) : M A := fun st => (Raise e, st).

Definition bind {A C : Type} (m : M A) (k : A -> M C) : M C :=
  fun st =>
    match m st with
    | (Return a, st') => k a st'
    | (Raise e, st') => (Raise e, st')
    end.

(** A call to a collaborator: logged, then run on the world. *)
Definition invoke {A : Type} (c : Call) (f : World -> outcome A * World)
  : M A :=
  fun st =>
    let (r, w) := f (world st) in
    (r, {| world := w; stdout := stdout st; calls := calls st ++ [c] |}).

(** [print(line)] *)
Definition print (line : string) : M unit :=
  fun st =>
    (Return tt,
     {| world := world st; stdout := stdout st ++ [line]; calls := calls st |}).

(** [for x in xs: body(x)] *)
Fixpoint for_each {A : Type} (xs : list A) (body : A -> M unit) : M unit :=
  match xs with
  | [] => ret tt
  | x :: xs' => bind (body x) (fun _ => for_each xs' body)
  end.

End Runtime.

Notation "x <- m ;; k" := (bind m (fun x => k))
  (at level 61, m at next level, right associativity).
Notation "m ;;; k" := (bind m (fun _ => k))
  (at level 61, right associativity).

(** ** The submitter *)
Section Submitter.
Context {B : Base} {C : Collaborators}.

(** The collaborators as the submitter calls them. *)
Definition load_from_db (datasource model_name : string) : M Model :=
  invoke (call_load_from_db datasource model_name)
         (Model_load_from_db datasource model_name).

Definition read_metadata (datasource model_name : string)
  : M (Dict.t MetaValue) :=
  invoke (call_read_metadata_from_db datasource model_name)
         (read_metadata_from_db datasource model_name).

Definition call_train_func (train_func : TrainRoutine)
  (kwargs : list (string * Value)) : M PyObject :=
  invoke (call_train train_func kwargs) (train train_func kwargs).

Definition dump_strings (result_set : list Row) (header : list string)
  : M (list string) :=
  invoke (call_dump_strings result_set header)
         (fun w => (ProtobufWriter_dump_strings result_set header, w)).

(** The message of the error for a model type without a local backend:
    ["not implemented model type: {}".format(model.get_type())]. *)
Definition not_implemented_message (t : EstimatorType) : string :=
  "not implemented model type: " ++ type_str t.

(** Lines 76-79: the train routine an estimator name selects. *)
Definition select_train_func (estimator_string : string) : TrainRoutine :=
  if Str.startswith (Str.lower estimator_string) "xgboost"
  then xgboost_train
  else tf_train.

(** Lines 81-93: the keyword arguments of the call to the train routine. *)
Definition train_kwargs
  (datasource original_sql select validation_select estimator_string
   model_image : string)
  (feature_column_map label_column : PyObject)
  (model_params train_params validation_params : Dict.t PyObject)
  (save load : string) : list (string * Value) :=
  [ ("original_sql", VStr original_sql);
    ("model_image", VStr model_image);
    ("estimator_string", VStr estimator_string);
    ("datasource", VStr datasource);
    ("select", VStr select);
    ("validation_select", VStr validation_select);
    ("model_params", VDict model_params);
    ("train_params", VDict train_params);
    ("validation_params", VDict validation_params);
    ("feature_column_map", VObj feature_column_map);
    ("label_column", VObj label_column);
    ("save", VStr save);
    ("load", VStr load) ].

(** [submit_local_train], lines 26-93.  [user] is not used. *)
Definition submit_local_train
  (datasource original_sql select validation_select estimator_string
   model_image : string)
  (feature_column_map label_column : PyObject)
  (model_params train_params validation_params : Dict.t PyObject)
  (save load user : string) : M PyObject :=
  let train_func := select_train_func estimator_string in
  call_train_func train_func
    (train_kwargs datasource original_sql select validation_select
       estimator_string model_image feature_column_map label_column
       model_params train_params validation_params save load).

(** [submit_local_pred], lines 96-109.  The function has no [return]: it
    gives [None], here [tt]. *)
Definition submit_local_pred
  (datasource original_sql select model_name : string)
  (label_column : PyObject) (model_params : Dict.t PyObject)
  (result_table user : string) : M unit :=
  model <- load_from_db datasource model_name ;;
  if type_eqb (get_type model) XGBOOST
  then
    invoke (call_xgboost_pred datasource select result_table label_column
              model)
           (xgboost_pred datasource select result_table label_column model)
    ;;; ret tt
  else raise (NotImplementedError (not_implemented_message (get_type model))).

(** Lines 120-121: the metrics to evaluate.  The option values are strings:
    the code calls [split] on the one it reads. *)
Definition validation_metrics_of (model_params : Dict.t string)
  : list string :=
  Str.split (Dict.get_default model_params "validation.metrics" "Accuracy")
            ",".

(** [submit_local_evaluate], lines 112-130. *)
Definition submit_local_evaluate
  (datasource original_sql select model_name : string)
  (model_params : Dict.t string) (result_table user : string) : M unit :=
  model <- load_from_db datasource model_name ;;
  let validation_metrics := validation_metrics_of model_params in
  let label_fc := get_meta model "label" in
  match label_fc with
  | MetaFeatureColumn fc =>
      match FeatureColumn.get_field_desc fc with
      | field_desc :: _ =>
          let pred_label_name := FieldDesc.name field_desc in
          if type_eqb (get_type model) XGBOOST
          then
            invoke (call_xgboost_evaluate datasource select result_table
                      model pred_label_name validation_metrics)
                   (xgboost_evaluate datasource select result_table model
                      pred_label_name validation_metrics)
            ;;; ret tt
          else
            raise (NotImplementedError
                     (not_implemented_message (get_type model)))
      | [] => raise IndexError
      end
  | _ => raise AssertionError
  end.

(** Lines 142-146: the loop that collects the summary parameters, over the
    keys [ks] still to visit.  [model_params[k]] raises [KeyError] on a
    missing key. *)
Fixpoint summary_loop (ks : list string)
  (model_params summary_params : Dict.t PyObject)
  : outcome (Dict.t PyObject) :=
  match ks with
  | [] => Return summary_params
  | k :: ks' =>
      if Str.startswith k "summary."
      then
        let summary_key := Str.replace k "summary." "" in
        match Dict.get model_params k with
        | Some v =>
            summary_loop ks' model_params (Dict.set summary_params summary_key v)
        | None => Raise (KeyError k)
        end
      else summary_loop ks' model_params summary_params
  end.

Definition summary_params_of (model_params : Dict.t PyObject)
  : outcome (Dict.t PyObject) :=
  summary_loop (Dict.keys model_params) model_params [].

Definition lift {A : Type} (r : outcome A) : M A := fun st => (r, st).

(** [submit_local_explain], lines 133-153. *)
Definition submit_local_explain
  (datasource original_sql select model_name : string)
  (model_params : Dict.t PyObject)
  (result_table explainer user : string) : M unit :=
  model <- load_from_db datasource model_name ;;
  summary_params <- lift (summary_params_of model_params) ;;
  if type_eqb (get_type model) XGBOOST
  then
    invoke (call_xgboost_explain datasource select explainer summary_params
              result_table model)
           (xgboost_explain datasource select explainer summary_params
              result_table model)
    ;;; ret tt
  else raise (NotImplementedError (not_implemented_message (get_type model))).

(** [submit_local_show_train], lines 156-166. *)
Definition submit_local_show_train (datasource model_name : string)
  : M unit :=
  meta <- read_metadata datasource model_name ;;
  let original_sql := Dict.get_default meta "original_sql" MetaNone in
  if negb (truthy original_sql)
  then raise (ValueError "cannot find the train SQL statement")
  else
    let result_set := [(model_name, original_sql)] in
    let header := ["Model"; "Train Statement"] in
    lines <- dump_strings result_set header ;;
    for_each lines print.

(** The state once the model is loaded: the world as the registry leaves
    it, and the load logged. *)
Definition loaded (datasource model_name : string) (st : State) : State :=
  {| world := snd (Model_load_from_db datasource model_name (world st));
     stdout := stdout st;
     calls := calls st ++ [call_load_from_db datasource model_name] |}.

(** A state reached from another by printing and by calling out: the
    output and the log of calls have only been added to. *)
Definition extends (st st' : State) : Prop :=
  (exists out, stdout st' = (stdout st ++ out)%list) /\
  (exists cs, calls st' = (calls st ++ cs)%list).

(** A computation that only adds to the output and to the log. *)
Definition appends {A : Type} (m : M A) : Prop :=
  forall st, extends st (snd (m st)).

(** The lines a run prints: what it adds to the standard output. *)
Definition printed {A : Type} (m : M A) (st : State) : list string :=
  skipn (List.length (stdout st)) (stdout (snd (m st))).

(** The calls a run makes. *)
Definition called {A : Type} (m : M A) (st : State) : list Call :=
  skipn (List.length (calls st)) (calls (snd (m st))).

End Submitter.

(** ** A small runtime to run the submitter on

    Three type tags, a registry with a handful of stored models, backends
    that count their calls in the world, and a writer that prints the
    header and the rows with their cells separated by a bar. *)
Module Demo.

Inductive tag : Type := TENSORFLOW | XGB | PAIML.

Definition tag_eqb (a b : tag) : bool :=
  match a, b with
  | TENSORFLOW, TENSORFLOW | XGB, XGB | PAIML, PAIML => true
  | _, _ => false
  end.

Definition tag_str (a : tag) : string :=
  match a with
  | TENSORFLOW => "0"
  | XGB => "1"
  | PAIML => "2"
  end.

Lemma tag_eqb_eq (a b : tag) : tag_eqb a b = true <-> a = b.
Proof. destruct a, b; simpl; split; intros H; congruence. Defined.

#[export] Instance base : Base := {|
  World := nat;
  PyObject := string;
  EstimatorType := tag;
  XGBOOST := XGB;
  type_eqb := tag_eqb;
  type_eqb_eq := tag_eqb_eq;
  type_str := tag_str
|}.

Definition label_fc : MetaValue :=
  MetaFeatureColumn
    {| FeatureColumn.get_field_desc :=
         [ {| FieldDesc.name := "class" |}; {| FieldDesc.name := "weight" |} ] |}.

Definition trained (t : tag) (label : MetaValue) : Model :=
  {| model_type := t;
     model_meta := [("original_sql", MetaStr "SELECT * FROM t"); ("label", label)] |}.

Definition stored_models : Dict.t Model :=
  [ ("m1", trained XGB label_fc);
    ("my_xgb_model", trained XGB label_fc);
    ("my_dnn_model", trained TENSORFLOW label_fc);
    ("xgb_text_label", trained XGB (MetaStr "class"));
    ("dnn_text_label", trained TENSORFLOW (MetaStr "class"));
    ("dnn_no_fields",
     trained TENSORFLOW
       (MetaFeatureColumn {| FeatureColumn.get_field_desc := [] |}));
    ("untrained", {| model_type := XGB; model_meta := [] |});
    ("blank", {| model_type := XGB;
                 model_meta := [("original_sql", MetaStr "")] |}) ].

Definition lookup_model (model_name : string) : outcome Model :=
  match Dict.get stored_models model_name with
  | Some m => Return m
  | None => Raise (ExternalError "model not found")
  end.

Definition lookup_meta (model_name : string) : outcome (Dict.t MetaValue) :=
  match lookup_model model_name with
  | Return m => Return (model_meta m)
  | Raise e => Raise e
  end.

Definition cell (v : MetaValue) : string :=
  match v with
  | MetaNone => "None"
  | MetaStr s => s
  | MetaFeatureColumn _ => "<FeatureColumn>"
  end.

Definition write_table (result_set : list Row) (header : list string)
  : list string :=
  Str.join "|" header
  :: map (fun r : Row => Str.join "|" [fst r; cell (snd r)]) result_set.

#[export] Instance collaborators : Collaborators := {|
  Model_load_from_db := fun _ model_name (w : World) => (lookup_model model_name, w);
  read_metadata_from_db := fun _ model_name (w : World) => (lookup_meta model_name, w);
  train := fun f _ (w : World) =>
    (Return (match f with
             | xgboost_train => "booster"
             | tf_train => "estimator"
             end : PyObject), S w);
  xgboost_pred := fun _ _ _ _ _ (w : World) => (Return ("None" : PyObject), S w);
  xgboost_evaluate := fun _ _ _ _ _ _ (w : World) => (Return ("None" : PyObject), S w);
  xgboost_explain := fun _ _ _ _ _ _ (w : World) => (Return ("None" : PyObject), S w);
  ProtobufWriter_dump_strings := fun result_set header =>
    Return (write_table result_set header)
|}.

(** An opaque object of the small runtime, given by its text. *)
Definition obj (text : string) : PyObject := text.

(** The state before anything ran. *)
Definition start : State := {| world := 0; stdout := []; calls := [] |}.

(** A state after some backend calls and some output. *)
Definition busy : State :=
  {| world := 7; stdout := ["earlier output"]; calls := [] |}.

End Demo.

(** ** Notions the properties are stated with *)

(** A character matches an ASCII lower-case letter when case is ignored:
    it is the letter or its capital, 32 places before. *)
Definition same_letter (c l : ascii) : bool :=
  Ascii.eqb c l || (N_of_ascii c + 32 =? N_of_ascii l)%N.

(** [s] starts with [prefix] when case is ignored. *)
Fixpoint starts_with_ignoring_case (s prefix : string) {struct prefix} : bool :=
  match prefix with
  | EmptyString => true
  | String l prefix' =>
      match s with
      | EmptyString => false
      | String c s' => same_letter c l && starts_with_ignoring_case s' prefix'
      end
  end.

(** The strings made of the letters a to z. *)
Fixpoint lower_letters (p : string) : bool :=
  match p with
  | EmptyString => true
  | String l p' =>
      ((97 <=? N_of_ascii l) && (N_of_ascii l <=? 122))%N && lower_letters p'
  end.

(** [s] without its first [n] characters. *)
Fixpoint drop (n : nat) (s : string) : string :=
  match n, s with
  | O, _ => s
  | S _, EmptyString => EmptyString
  | S n', String _ s' => drop n' s'
  end.

(** The summary sub-map in the specification's words: one entry for each
    key that starts with "summary.", under the key without this leading
    prefix and with the same value; other keys give no entry. *)
Fixpoint summary_entries {V : Type} (model_params : Dict.t V) : Dict.t V :=
  match model_params with
  | [] => []
  | (k, v) :: rest =>
      if Str.startswith k "summary."
      then (drop (String.length "summary.") k, v) :: summary_entries rest
      else summary_entries rest
  end.

(** The number of occurrences of a character in a string. *)
Fixpoint count_char (c : ascii) (s : string) : nat :=
  match s with
  | EmptyString => 0
  | String d s' => (if Ascii.eqb d c then 1 else 0) + count_char c s'
  end.

(** ** A runtime that records what the evaluate routine receives

    Its world is the list of the (prediction-label name, metrics) pairs
    the evaluate routine was run with, in order; the registry holds a
    gradient-boosting model with a proper label column, one with a text
    label, and a deep-learning model. *)
Module DemoRecording.

Definition base : Base := {|
  World := list (string * list string);
  PyObject := string;
  EstimatorType := Demo.tag;
  XGBOOST := Demo.XGB;
  type_eqb := Demo.tag_eqb;
  type_eqb_eq := Demo.tag_eqb_eq;
  type_str := Demo.tag_str
|}.

Definition stored (t : Demo.tag) (label : MetaValue) : @Model base :=
  @Build_Model base t
    [("original_sql", MetaStr "SELECT * FROM t"); ("label", label)].

Definition lookup_model (model_name : string) : outcome (@Model base) :=
  if String.eqb model_name "my_xgb_model"
  then Return (stored Demo.XGB Demo.label_fc)
  else if String.eqb model_name "xgb_text_label"
  then Return (stored Demo.XGB (MetaStr "class"))
  else if String.eqb model_name "my_dnn_model"
  then Return (stored Demo.TENSORFLOW Demo.label_fc)
  else Raise (ExternalError "model not found").

Definition lookup_meta (model_name : string) : outcome (Dict.t MetaValue) :=
  match lookup_model model_name with
  | Return m => Return (model_meta m)
  | Raise e => Raise e
  end.

Definition collaborators : @Collaborators base := {|
  Model_load_from_db :=
    fun _ model_name (w : @World base) => (lookup_model model_name, w);
  read_metadata_from_db :=
    fun _ model_name (w : @World base) => (lookup_meta model_name, w);
  train :=
    fun _ _ (w : @World base) => (Return ("trained" : @PyObject base), w);
  xgboost_pred :=
    fun _ _ _ _ _ (w : @World base) => (Return ("None" : @PyObject base), w);
  xgboost_evaluate :=
    fun _ _ _ _ pred_label_name validation_metrics (w : @World base) =>
      (Return ("None" : @PyObject base),
       (w ++ [(pred_label_name, validation_metrics)])%list);
  xgboost_explain :=
    fun _ _ _ _ _ _ (w : @World base) => (Return ("None" : @PyObject base), w);
  ProtobufWriter_dump_strings :=
    fun result_set header => Return (Demo.write_table result_set header)
|}.

(** The state before anything ran. *)
Definition start : @State base :=
  {| world := ([] : @World base); stdout := []; calls := [] |}.

End DemoRecording.

(** * Properties *)

(** ** Strings *)
Module StrFacts.
Import Str.

Lemma startswith_app (p t : string) : startswith (p ++ t) p = true.
Proof.
  induction p as [|c p IH]; simpl; [reflexivity|].
  now rewrite Ascii.eqb_refl, IH.
Qed.

(** [startswith] is the prefix relation. *)
Lemma startswith_iff (s p : string) :
  startswith s p = true <-> exists t, s = p ++ t.
Proof.
  split.
  - revert s; induction p as [|c p IH]; intros s H; simpl in *.
    + now exists s.
    + destruct s as [|d s]; [discriminate|].
      apply andb_true_iff in H as [Hc Hs].
      apply Ascii.eqb_eq in Hc; subst d.
      destruct (IH _ Hs) as [t ->]. now exists t.
  - intros [t ->]. apply startswith_app.
Qed.

Lemma lower_app (a b : string) : lower (a ++ b) = lower a ++ lower b.
Proof. induction a as [|c a IH]; simpl; [reflexivity|now rewrite IH]. Qed.

Lemma lower_length (s : string) : String.length (lower s) = String.length s.
Proof. induction s as [|c s IH]; simpl; [reflexivity|now rewrite IH]. Qed.

Lemma lower_char_idempotent (c : ascii) : lower_char (lower_char c) = lower_char c.
Proof. destruct c as [[] [] [] [] [] [] [] []]; reflexivity. Qed.

(** Lower-casing a lower-cased string changes nothing. *)
Lemma lower_idempotent (s : string) : lower (lower s) = lower s.
Proof.
  induction s as [|c s IH]; simpl; [reflexivity|].
  now rewrite lower_char_idempotent, IH.
Qed.

(** A string whose lower-case form is [a ++ b] is itself a part that
    lower-cases to [a] followed by one that lower-cases to [b]. *)
Lemma lower_app_inv (s a b : string) :
  lower s = a ++ b ->
  exists p r, s = p ++ r /\ lower p = a /\ lower r = b.
Proof.
  revert s; induction a as [|c a IH]; intros s H; simpl in *.
  - exists "", s. auto.
  - destruct s as [|d s]; [discriminate|]. simpl in H.
    injection H as Hd Hs.
    destruct (IH _ Hs) as (p & r & -> & Hp & Hr).
    exists (String d p), r. simpl. now rewrite Hd, Hp.
Qed.

(** The only characters that lower-case to an ASCII lower-case letter are
    the letter and its capital. *)
Lemma lower_char_letter (c l : ascii) :
  (97 <= N_of_ascii l <= 122)%N ->
  lower_char c = l ->
  c = l \/ (N_of_ascii c + 32 = N_of_ascii l)%N.
Proof.
  intros Hl <-. unfold lower_char in *.
  destruct (_ || _)%bool eqn:E; [right|now left].
  rewrite N_ascii_embedding; [reflexivity|].
  pose proof (N_ascii_bounded c).
  apply orb_true_iff in E as [E|E].
  - apply andb_true_iff in E as [_ E]. apply N.leb_le in E. lia.
  - apply andb_true_iff in E as [E _]. apply andb_true_iff in E as [_ E].
    apply N.leb_le in E. lia.
Qed.

Lemma contains_here (s sub : string) :
  startswith s sub = true -> contains s sub = true.
Proof. intros H. destruct s; simpl in *; now rewrite H. Qed.

(** A string contains each of its substrings. *)
Lemma contains_app (p sub q : string) : contains (p ++ sub ++ q) sub = true.
Proof.
  induction p as [|c p IH]; simpl.
  - apply contains_here, startswith_app.
  - rewrite IH. apply orb_true_r.
Qed.

Lemma startswith_refl (s : string) : startswith s s = true.
Proof.
  induction s as [|c s IH]; simpl; [reflexivity|].
  now rewrite Ascii.eqb_refl, IH.
Qed.

(** A string contains each of its suffixes. *)
Lemma contains_suffix (p sub : string) : contains (p ++ sub) sub = true.
Proof.
  induction p as [|c p IH].
  - apply contains_here, startswith_refl.
  - change (String c p ++ sub) with (String c (p ++ sub)).
    cbn [contains]. rewrite IH. apply orb_true_r.
Qed.

Lemma contains_iff (s sub : string) :
  contains s sub = true <-> exists p q, s = p ++ sub ++ q.
Proof.
  split.
  - induction s as [|c s IH]; simpl; intros H.
    + rewrite orb_false_r in H. apply startswith_iff in H as [t ->].
      now exists "", t.
    + apply orb_true_iff in H as [H|H].
      * apply startswith_iff in H as [t H]. exists "", t. now rewrite H.
      * destruct (IH H) as (p & q & ->). now exists (String c p), q.
  - intros (p & q & ->). apply contains_app.
Qed.

(** *** [split] on a one-character separator *)

Lemma split_empty (sep : string) : split "" sep = [""].
Proof. reflexivity. Qed.

Lemma split_at_sep (c : ascii) (s : string) :
  split (String c s) (String c "") = "" :: split s (String c "").
Proof. unfold split; simpl. now rewrite Ascii.eqb_refl. Qed.

Lemma split_not_nil (c : ascii) (s : string) : split s (String c "") <> [].
Proof.
  unfold split. induction s as [|d s IH]; simpl; [discriminate|].
  destruct (Ascii.eqb d c); simpl; [discriminate|].
  destruct (split_from 0 (String c "") s); [contradiction|discriminate].
Qed.

Lemma split_at_other (c d : ascii) (s : string) :
  d <> c ->
  exists piece pieces,
    split s (String c "") = piece :: pieces /\
    split (String d s) (String c "") = String d piece :: pieces.
Proof.
  intros Hd. pose proof (split_not_nil c s) as Hn.
  unfold split in *; simpl.
  apply Ascii.eqb_neq in Hd. rewrite Hd; simpl.
  destruct (split_from 0 (String c "") s) as [|piece pieces]; [contradiction|].
  now exists piece, pieces.
Qed.

(** Joining the pieces with the separator gives the string back. *)
Lemma join_split (c : ascii) (s : string) :
  join (String c "") (split s (String c "")) = s.
Proof.
  induction s as [|d s IH]; [reflexivity|].
  destruct (Ascii.eqb_spec d c) as [->|Hd].
  - rewrite split_at_sep.
    pose proof (split_not_nil c s) as Hn.
    destruct (split s (String c "")) as [|p ps] eqn:E; [contradiction|].
    change (join (String c "") ("" :: p :: ps))
      with (String c (join (String c "") (p :: ps))).
    now rewrite IH.
  - destruct (split_at_other c d s Hd) as (p & ps & E1 & E2).
    rewrite E2. rewrite E1 in IH.
    destruct ps; simpl in *; now rewrite IH.
Qed.

(** No piece holds the separator. *)
Lemma split_pieces (c : ascii) (s : string) :
  Forall (fun piece => contains piece (String c "") = false)
         (split s (String c "")).
Proof.
  induction s as [|d s IH]; [repeat constructor|].
  destruct (Ascii.eqb_spec d c) as [->|Hd].
  - rewrite split_at_sep. now constructor.
  - destruct (split_at_other c d s Hd) as (p & ps & E1 & E2).
    rewrite E2. rewrite E1 in IH. inversion IH as [|? ? Hp Hps]; subst.
    constructor; [|assumption].
    simpl. apply Ascii.eqb_neq in Hd. rewrite Hd. simpl.
    destruct p; simpl in *; assumption.
Qed.

Lemma split_piece_then_sep (c : ascii) (p t : string) :
  contains p (String c "") = false ->
  split (p ++ String c t) (String c "") = p :: split t (String c "").
Proof.
  induction p as [|d p IH]; intros H.
  - apply split_at_sep.
  - simpl in H. apply orb_false_iff in H as [Hd Hp].
    rewrite andb_true_r in Hd. apply Ascii.eqb_neq in Hd.
    assert (Hp' : contains p (String c "") = false)
      by (destruct p; simpl in *; assumption).
    destruct (split_at_other c d (p ++ String c t) Hd) as (q & qs & E1 & E2).
    simpl. rewrite E2. rewrite (IH Hp') in E1. now injection E1 as <- <-.
Qed.

Lemma split_single_piece (c : ascii) (p : string) :
  contains p (String c "") = false -> split p (String c "") = [p].
Proof.
  induction p as [|d p IH]; intros H; [reflexivity|].
  simpl in H. apply orb_false_iff in H as [Hd Hp].
  rewrite andb_true_r in Hd. apply Ascii.eqb_neq in Hd.
  assert (Hp' : contains p (String c "") = false)
    by (destruct p; simpl in *; assumption).
  destruct (split_at_other c d p Hd) as (q & qs & E1 & E2).
  rewrite E2. rewrite (IH Hp') in E1. now injection E1 as <- <-.
Qed.

(** [split] is the only way to cut a string into pieces without the
    separator: it inverts [join] on them. *)
Lemma split_join (c : ascii) (pieces : list string) :
  pieces <> [] ->
  Forall (fun piece => contains piece (String c "") = false) pieces ->
  split (join (String c "") pieces) (String c "") = pieces.
Proof.
  induction pieces as [|p ps IH]; intros Hn Hall; [contradiction|].
  inversion Hall as [|? ? Hp Hps]; subst.
  destruct ps as [|p' ps].
  - now apply split_single_piece.
  - change (join (String c "") (p :: p' :: ps))
      with (p ++ String c (join (String c "") (p' :: ps))).
    rewrite (split_piece_then_sep c p _ Hp).
    f_equal. apply IH; [discriminate|assumption].
Qed.

(** *** [replace] *)

Lemma replace_from_skip (a old new s : string) :
  replace_from (String.length a) old new (a ++ s) = replace_from 0 old new s.
Proof. induction a as [|c a IH]; simpl; [reflexivity|assumption]. Qed.

(** A leading occurrence is replaced and the scan goes on after it. *)
Lemma replace_leading (c : ascii) (old new rest : string) :
  replace (String c old ++ rest) (String c old) new
  = new ++ replace rest (String c old) new.
Proof.
  unfold replace.
  change (replace_from 0 (String c old) new (String c old ++ rest))
    with (if startswith (String c old ++ rest) (String c old)
          then new ++ replace_from (String.length (String c old) - 1)
                        (String c old) new (old ++ rest)
          else String c (replace_from 0 (String c old) new (old ++ rest))).
  rewrite startswith_app.
  replace (String.length (String c old) - 1) with (String.length old)
    by (simpl; lia).
  now rewrite replace_from_skip.
Qed.

(** A string without an occurrence is left as it is. *)
Lemma replace_absent (s old new : string) :
  old <> "" -> contains s old = false -> replace s old new = s.
Proof.
  intros Ho. unfold replace. destruct old as [|c old]; [contradiction|].
  induction s as [|d s IH]; intros H; [reflexivity|].
  cbn [contains] in H. apply orb_false_iff in H as [H1 H2].
  cbn [replace_from]. rewrite H1. f_equal. now apply IH.
Qed.

(** *** Case *)

Lemma lower_char_eqb (c l : ascii) :
  (97 <= N_of_ascii l <= 122)%N ->
  Ascii.eqb (lower_char c) l = same_letter c l.
Proof.
  intros Hl. apply eq_true_iff_eq. unfold same_letter.
  rewrite orb_true_iff, !Ascii.eqb_eq, N.eqb_eq. split.
  - now apply lower_char_letter.
  - intros [->|H].
    + unfold lower_char.
      destruct (_ || _)%bool eqn:E; [|reflexivity].
      apply orb_true_iff in E as [E|E];
        repeat (apply andb_true_iff in E as [E ?]);
        repeat match goal with
               | H : (_ <=? _)%N = true |- _ => apply N.leb_le in H
               end; lia.
    + unfold lower_char.
      assert (E : (((65 <=? N_of_ascii c) && (N_of_ascii c <=? 90)))%N = true)
        by (apply andb_true_iff; split; apply N.leb_le; lia).
      rewrite E. simpl. rewrite H. apply ascii_N_embedding.
Qed.

(** Testing a prefix of lower-case letters on the lower-cased string is
    testing it on the string with case ignored. *)
Lemma startswith_lower (p : string) :
  lower_letters p = true ->
  forall s, startswith (lower s) p = starts_with_ignoring_case s p.
Proof.
  induction p as [|l p IH]; intros Hp s; [reflexivity|].
  simpl in Hp. apply andb_true_iff in Hp as [Hl Hp].
  apply andb_true_iff in Hl as [Hl1 Hl2].
  apply N.leb_le in Hl1, Hl2.
  destruct s as [|c s]; [reflexivity|]. simpl.
  rewrite lower_char_eqb by lia. now rewrite IH.
Qed.

(** A string that starts with a prefix is the prefix and the rest. *)
Lemma startswith_drop (s p : string) :
  startswith s p = true -> s = p ++ drop (String.length p) s.
Proof.
  revert s; induction p as [|c p IH]; intros s H; [reflexivity|].
  destruct s as [|d s]; [discriminate|]. simpl in H.
  apply andb_true_iff in H as [Hc Hs]. apply Ascii.eqb_eq in Hc. subst d.
  simpl. f_equal. now apply IH.
Qed.

(** Where the prefix occurs once, [replace] by the empty string removes
    it and nothing else. *)
Lemma replace_only_prefix (s p : string) :
  p <> "" ->
  startswith s p = true ->
  contains (drop (String.length p) s) p = false ->
  replace s p "" = drop (String.length p) s.
Proof.
  intros Hp Hs Hc. rewrite (startswith_drop s p Hs) at 1.
  destruct p as [|c p]; [contradiction|].
  rewrite replace_leading. now apply replace_absent.
Qed.

(** *** Counting the pieces *)

(** [split] gives one piece more than the string has separators. *)
Lemma split_length (c : ascii) (s : string) :
  List.length (split s (String c "")) = S (count_char c s).
Proof.
  induction s as [|d s IH]; [reflexivity|].
  cbn [count_char].
  destruct (Ascii.eqb_spec d c) as [->|Hd].
  - rewrite split_at_sep. simpl. now rewrite IH.
  - destruct (split_at_other c d s Hd) as (p & ps & E1 & E2).
    rewrite E2. rewrite E1 in IH. simpl in *. assumption.
Qed.

(** *** Prefix tests and length *)

Lemma startswith_short (s p : string) :
  String.length s < String.length p -> startswith s p = false.
Proof.
  revert s; induction p as [|c p IH]; intros s H; simpl in H; [lia|].
  destruct s as [|d s]; [reflexivity|]. simpl in *.
  rewrite IH by lia. apply andb_false_r.
Qed.

(** What follows the first [length p] characters plays no part. *)
Lemma startswith_app_long (s t p : string) :
  String.length p <= String.length s ->
  startswith (s ++ t) p = startswith s p.
Proof.
  revert s; induction p as [|c p IH]; intros s H; [reflexivity|].
  destruct s as [|d s]; simpl in H; [lia|].
  simpl. rewrite IH by lia. reflexivity.
Qed.

End StrFacts.

(** ** Dictionaries *)
Module DictFacts.

Lemma get_of_key {V : Type} (d : Dict.t V) (k : string) :
  In k (Dict.keys d) -> exists v, Dict.get d k = Some v.
Proof.
  induction d as [|[k' v'] d IH]; simpl; [contradiction|].
  intros [->|H].
  - rewrite String.eqb_refl. now exists v'.
  - destruct (String.eqb k' k); [now exists v'|now apply IH].
Qed.

Lemma get_absent {V : Type} (d : Dict.t V) (k : string) :
  Dict.get d k = None <-> ~ In k (Dict.keys d).
Proof.
  induction d as [|[k' v'] d IH]; simpl; [tauto|].
  destruct (String.eqb_spec k' k) as [->|Hk].
  - split; [discriminate|]. intros H. exfalso. apply H. now left.
  - rewrite IH. tauto.
Qed.

Lemma get_set_same {V : Type} (d : Dict.t V) (k : string) (v : V) :
  Dict.get (Dict.set d k v) k = Some v.
Proof.
  induction d as [|[k' v'] d IH]; simpl.
  - now rewrite String.eqb_refl.
  - destruct (String.eqb k' k) eqn:E; simpl; now rewrite E.
Qed.

Lemma get_set_other {V : Type} (d : Dict.t V) (k k0 : string) (v : V) :
  k0 <> k -> Dict.get (Dict.set d k v) k0 = Dict.get d k0.
Proof.
  intros Hk. induction d as [|[k' v'] d IH]; simpl.
  - apply String.eqb_neq in Hk. rewrite String.eqb_sym in Hk. now rewrite Hk.
  - destruct (String.eqb_spec k' k) as [->|E]; simpl.
    + apply String.eqb_neq in Hk. rewrite String.eqb_sym in Hk. now rewrite Hk.
    + now rewrite IH.
Qed.

Lemma get_app_fresh {V : Type} (d rest : Dict.t V) (k : string) (v : V) :
  ~ In k (Dict.keys d) -> Dict.get (d ++ (k, v) :: rest)%list k = Some v.
Proof.
  induction d as [|[k' v'] d IH]; simpl; intros H.
  - now rewrite String.eqb_refl.
  - destruct (String.eqb_spec k' k) as [->|E]; [exfalso; auto|].
    apply IH. auto.
Qed.

(** A new key goes to the end. *)
Lemma set_fresh {V : Type} (d : Dict.t V) (k : string) (v : V) :
  ~ In k (Dict.keys d) -> Dict.set d k v = (d ++ [(k, v)])%list.
Proof.
  induction d as [|[k' v'] d IH]; simpl; intros H; [reflexivity|].
  destruct (String.eqb_spec k' k) as [->|E]; [exfalso; auto|].
  f_equal. apply IH. auto.
Qed.

Lemma keys_set {V : Type} (d : Dict.t V) (k k0 : string) (v : V) :
  In k0 (Dict.keys (Dict.set d k v)) <-> k0 = k \/ In k0 (Dict.keys d).
Proof.
  induction d as [|[k' v'] d IH]; simpl.
  - intuition.
  - destruct (String.eqb_spec k' k) as [->|E]; simpl.
    + intuition.
    + rewrite IH. intuition.
Qed.

(** Assignment keeps the keys unique. *)
Lemma wf_set {V : Type} (d : Dict.t V) (k : string) (v : V) :
  Dict.wf d -> Dict.wf (Dict.set d k v).
Proof.
  unfold Dict.wf. induction d as [|[k' v'] d IH]; simpl; intros H.
  - constructor; [intros []|constructor].
  - inversion H as [|? ? Hnotin Hd]; subst.
    destruct (String.eqb_spec k' k) as [->|E]; simpl.
    + now constructor.
    + constructor; [|now apply IH].
      intros Hin. apply (keys_set d k k' v) in Hin as [Hin|Hin]; auto.
Qed.

End DictFacts.

(** ** The dispatch *)
Section Dispatch.
Context {B : Base} {C : Collaborators}.

Lemma skipn_all_app {A : Type} (l l' : list A) :
  skipn (List.length l) (l ++ l')%list = l'.
Proof. induction l; simpl; auto. Qed.

Lemma skipn_all_app2 {A : Type} (l l1 l2 : list A) :
  skipn (List.length l) ((l ++ l1) ++ l2)%list = (l1 ++ l2)%list.
Proof. rewrite <- app_assoc. apply skipn_all_app. Qed.

Lemma skipn_all {A : Type} (l : list A) : skipn (List.length l) l = [].
Proof. induction l; simpl; auto. Qed.

(** The tag test of the code is equality with the gradient-boosting tag. *)
Lemma type_eqb_neq (a b : EstimatorType) : a <> b -> type_eqb a b = false.
Proof.
  intros H. destruct (type_eqb a b) eqn:E; [|reflexivity].
  now apply type_eqb_eq in E.
Qed.

Lemma type_eqb_refl (a : EstimatorType) : type_eqb a a = true.
Proof. now apply type_eqb_eq. Qed.

(** The selection is a test on the lower-cased name. *)
Lemma select_train_func_xgboost (estimator_string : string) :
  select_train_func estimator_string = xgboost_train <->
  Str.startswith (Str.lower estimator_string) "xgboost" = true.
Proof.
  unfold select_train_func.
  destruct (Str.startswith _ _); split; intros H; congruence.
Qed.

Lemma select_train_func_tf (estimator_string : string) :
  select_train_func estimator_string = tf_train <->
  Str.startswith (Str.lower estimator_string) "xgboost" = false.
Proof.
  unfold select_train_func.
  destruct (Str.startswith _ _); split; intros H; congruence.
Qed.

(** What a run of [submit_local_train] is: one call, to the selected
    routine, with the keyword arguments built from the inputs. *)
Lemma submit_local_train_run
  (datasource original_sql select validation_select estimator_string
   model_image : string)
  (feature_column_map label_column : PyObject)
  (model_params train_params validation_params : Dict.t PyObject)
  (save load user : string) (st : State) :
  submit_local_train datasource original_sql select validation_select
    estimator_string model_image feature_column_map label_column
    model_params train_params validation_params save load user st
  = let kwargs :=
      train_kwargs datasource original_sql select validation_select
        estimator_string model_image feature_column_map label_column
        model_params train_params validation_params save load in
    let f := select_train_func estimator_string in
    (fst (train f kwargs (world st)),
     {| world := snd (train f kwargs (world st));
        stdout := stdout st;
        calls := calls st ++ [call_train f kwargs] |}).
Proof.
  unfold submit_local_train, call_train_func, invoke. cbv zeta.
  now destruct (train _ _ _).
Qed.

(** C1: an estimator name whose lower-case form starts with "xgboost" makes
    [submit_local_train] call the gradient-boosting train routine, every
    other name makes it call the deep-learning one; names with the same
    lower-case form select the same routine, and the names that select
    gradient boosting are those that start with "xgboost" when case is
    ignored. *)
Theorem train_selection_by_lowercase_prefix
  (datasource original_sql select validation_select estimator_string
   model_image : string)
  (feature_column_map label_column : PyObject)
  (model_params train_params validation_params : Dict.t PyObject)
  (save load user : string) (st : State) :
  ((exists rest, Str.lower estimator_string = "xgboost" ++ rest) ->
   exists kwargs,
     called (submit_local_train datasource original_sql select
               validation_select estimator_string model_image
               feature_column_map label_column model_params train_params
               validation_params save load user) st
     = [call_train xgboost_train kwargs]) /\
  (~ (exists rest, Str.lower estimator_string = "xgboost" ++ rest) ->
   exists kwargs,
     called (submit_local_train datasource original_sql select
               validation_select estimator_string model_image
               feature_column_map label_column model_params train_params
               validation_params save load user) st
     = [call_train tf_train kwargs]) /\
  (forall other : string,
     Str.lower other = Str.lower estimator_string ->
     select_train_func other = select_train_func estimator_string) /\
  (select_train_func estimator_string = xgboost_train <->
   starts_with_ignoring_case estimator_string "xgboost" = true).
Proof.
  assert (Hcalled : forall f, select_train_func estimator_string = f ->
    exists kwargs,
     called (submit_local_train datasource original_sql select
               validation_select estimator_string model_image
               feature_column_map label_column model_params train_params
               validation_params save load user) st
     = [call_train f kwargs]).
  { intros f <-. eexists. unfold called.
    rewrite submit_local_train_run. cbv zeta. simpl.
    apply skipn_all_app. }
  repeat split.
  - intros H. apply Hcalled, select_train_func_xgboost.
    now apply StrFacts.startswith_iff.
  - intros H. apply Hcalled, select_train_func_tf.
    destruct (Str.startswith _ _) eqn:E; [|reflexivity].
    exfalso. apply H. now apply StrFacts.startswith_iff.
  - intros other H. unfold select_train_func. now rewrite H.
  - intros H. apply select_train_func_xgboost in H.
    now rewrite StrFacts.startswith_lower in H.
  - intros H. apply select_train_func_xgboost.
    now rewrite StrFacts.startswith_lower.
Qed.

(** C3: [submit_local_train] makes one call, to the selected train routine,
    and passes each of its thirteen inputs under the keyword of the same
    name; what the routine returns or raises is what the call returns or
    raises, the world is left as the routine leaves it and nothing is
    printed. *)
Theorem train_forwards_inputs
  (datasource original_sql select validation_select estimator_string
   model_image : string)
  (feature_column_map label_column : PyObject)
  (model_params train_params validation_params : Dict.t PyObject)
  (save load user : string) (st : State) :
  let kwargs :=
    [ ("original_sql", VStr original_sql);
      ("model_image", VStr model_image);
      ("estimator_string", VStr estimator_string);
      ("datasource", VStr datasource);
      ("select", VStr select);
      ("validation_select", VStr validation_select);
      ("model_params", VDict model_params);
      ("train_params", VDict train_params);
      ("validation_params", VDict validation_params);
      ("feature_column_map", VObj feature_column_map);
      ("label_column", VObj label_column);
      ("save", VStr save);
      ("load", VStr load) ] in
  let f := select_train_func estimator_string in
  let run :=
    submit_local_train datasource original_sql select validation_select
      estimator_string model_image feature_column_map label_column
      model_params train_params validation_params save load user in
  called run st = [call_train f kwargs] /\
  fst (run st) = fst (train f kwargs (world st)) /\
  world (snd (run st)) = snd (train f kwargs (world st)) /\
  printed run st = [].
Proof.
  cbv zeta. unfold called, printed.
  rewrite submit_local_train_run. cbv zeta. simpl.
  repeat split.
  - apply skipn_all_app.
  - apply skipn_all.
Qed.

(** ** The output and the log only grow *)

Lemma extends_refl (st : State) : extends st st.
Proof. split; exists []; now rewrite app_nil_r. Qed.

Lemma extends_trans (st1 st2 st3 : State) :
  extends st1 st2 -> extends st2 st3 -> extends st1 st3.
Proof.
  intros [[o1 Ho1] [c1 Hc1]] [[o2 Ho2] [c2 Hc2]]. split.
  - exists (o1 ++ o2)%list. now rewrite Ho2, Ho1, app_assoc.
  - exists (c1 ++ c2)%list. now rewrite Hc2, Hc1, app_assoc.
Qed.

Lemma appends_ret {A : Type} (a : A) : appends (ret a).
Proof. intros st. apply extends_refl. Qed.

Lemma appends_raise {A : Type} (e : exn) : appends (@raise _ A e).
Proof. intros st. apply extends_refl. Qed.

Lemma appends_lift {A : Type} (r : outcome A) : appends (lift r).
Proof. intros st. apply extends_refl. Qed.

Lemma appends_invoke {A : Type} (c : Call)
  (f : World -> outcome A * World) : appends (invoke c f).
Proof.
  intros st. unfold invoke. destruct (f (world st)) as [r w]. split; simpl.
  - exists []. now rewrite app_nil_r.
  - now exists [c].
Qed.

Lemma appends_print (line : string) : appends (print line).
Proof.
  intros st. split; simpl.
  - now exists [line].
  - exists []. now rewrite app_nil_r.
Qed.

Lemma appends_bind {A D : Type} (m : M A) (k : A -> M D) :
  appends m -> (forall a, appends (k a)) -> appends (bind m k).
Proof.
  intros Hm Hk st. unfold bind. specialize (Hm st).
  destruct (m st) as [[a|e] st']; simpl in *; [|assumption].
  eapply extends_trans; [exact Hm|apply Hk].
Qed.

Lemma appends_for_each {A : Type} (xs : list A) (body : A -> M unit) :
  (forall x, appends (body x)) -> appends (for_each xs body).
Proof.
  intros Hb. induction xs as [|x xs IH]; simpl.
  - apply appends_ret.
  - apply appends_bind; auto.
Qed.

Lemma appends_if {A : Type} (b : bool) (m1 m2 : M A) :
  appends m1 -> appends m2 -> appends (if b then m1 else m2).
Proof. now destruct b. Qed.

Create HintDb appends.
#[local] Hint Resolve appends_ret appends_raise appends_lift appends_invoke
  appends_print appends_bind appends_for_each appends_if : appends.

Ltac appends_tac :=
  repeat first
    [ apply appends_bind; [|intros ?]
    | apply appends_if
    | apply appends_for_each; intros ?
    | solve [auto with appends] ].

(** Each entry point only adds to the output and to the log of calls. *)
Lemma submit_local_train_appends
  (datasource original_sql select validation_select estimator_string
   model_image : string)
  (feature_column_map label_column : PyObject)
  (model_params train_params validation_params : Dict.t PyObject)
  (save load user : string) :
  appends (submit_local_train datasource original_sql select
             validation_select estimator_string model_image
             feature_column_map label_column model_params train_params
             validation_params save load user).
Proof. unfold submit_local_train, call_train_func. appends_tac. Qed.

Lemma submit_local_pred_appends
  (datasource original_sql select model_name : string)
  (label_column : PyObject) (model_params : Dict.t PyObject)
  (result_table user : string) :
  appends (submit_local_pred datasource original_sql select model_name
             label_column model_params result_table user).
Proof. unfold submit_local_pred, load_from_db. appends_tac. Qed.

Lemma submit_local_evaluate_appends
  (datasource original_sql select model_name : string)
  (model_params : Dict.t string) (result_table user : string) :
  appends (submit_local_evaluate datasource original_sql select model_name
             model_params result_table user).
Proof.
  unfold submit_local_evaluate, load_from_db.
  apply appends_bind; [auto with appends|]. intros model. cbv zeta.
  destruct (get_meta model "label") as [| |fc]; auto with appends.
  destruct (FeatureColumn.get_field_desc fc); auto with appends.
Qed.

Lemma submit_local_explain_appends
  (datasource original_sql select model_name : string)
  (model_params : Dict.t PyObject) (result_table explainer user : string) :
  appends (submit_local_explain datasource original_sql select model_name
             model_params result_table explainer user).
Proof. unfold submit_local_explain, load_from_db. appends_tac. Qed.

Lemma submit_local_show_train_appends (datasource model_name : string) :
  appends (submit_local_show_train datasource model_name).
Proof.
  unfold submit_local_show_train, read_metadata, dump_strings.
  apply appends_bind; [auto with appends|]. intros meta. cbv zeta.
  appends_tac.
Qed.

(** For such a computation [printed] and [called] are what the run added:
    the state after it is the state before it with them appended. *)
Lemma appends_printed_called {A : Type} (m : M A) (st : State) :
  appends m ->
  stdout (snd (m st)) = (stdout st ++ printed m st)%list /\
  calls (snd (m st)) = (calls st ++ called m st)%list.
Proof.
  intros H. destruct (H st) as [[out Ho] [cs Hc]].
  unfold printed, called. rewrite Ho, Hc, !skipn_all_app. auto.
Qed.

(** ** Runs that load a model *)

Lemma load_from_db_run (datasource model_name : string) (st : State) :
  load_from_db datasource model_name st
  = (fst (Model_load_from_db datasource model_name (world st)),
     loaded datasource model_name st).
Proof.
  unfold load_from_db, invoke, loaded. now destruct (Model_load_from_db _ _ _).
Qed.

Lemma bind_load {A : Type} (datasource model_name : string)
  (k : Model -> M A) (st : State) (model : Model) :
  fst (Model_load_from_db datasource model_name (world st)) = Return model ->
  bind (load_from_db datasource model_name) k st
  = k model (loaded datasource model_name st).
Proof.
  intros H. unfold bind. rewrite load_from_db_run, H. reflexivity.
Qed.

(** A failed load ends the run with the registry's exception. *)
Lemma bind_load_raise {A : Type} (datasource model_name : string)
  (k : Model -> M A) (st : State) (e : exn) :
  fst (Model_load_from_db datasource model_name (world st)) = Raise e ->
  bind (load_from_db datasource model_name) k st
  = (Raise e, loaded datasource model_name st).
Proof.
  intros H. unfold bind. rewrite load_from_db_run, H. reflexivity.
Qed.

(** A backend call whose value is dropped. *)
Lemma invoke_then_ret {A : Type} (c : Call) (f : World -> outcome A * World)
  (st : State) :
  bind (invoke c f) (fun _ => ret tt) st
  = (match fst (f (world st)) with
     | Return _ => Return tt
     | Raise e => Raise e
     end,
     {| world := snd (f (world st));
        stdout := stdout st;
        calls := calls st ++ [c] |}).
Proof.
  unfold bind, invoke, ret. destruct (f (world st)) as [[a|e] w]; reflexivity.
Qed.

Lemma called_after_load {A : Type} (m : M A) (datasource model_name : string)
  (st st' : State) (r : outcome A) (more : list Call) :
  m st = (r, st') ->
  calls st' = (calls (loaded datasource model_name st) ++ more)%list ->
  called m st = call_load_from_db datasource model_name :: more.
Proof.
  intros E H. unfold called. rewrite E. simpl. rewrite H. simpl.
  rewrite <- app_assoc. apply skipn_all_app.
Qed.

(** *** Predict *)

Lemma submit_local_pred_run
  (datasource original_sql select model_name : string)
  (label_column : PyObject) (model_params : Dict.t PyObject)
  (result_table user : string) (st : State) (model : Model) :
  fst (Model_load_from_db datasource model_name (world st)) = Return model ->
  submit_local_pred datasource original_sql select model_name label_column
    model_params result_table user st
  = let st1 := loaded datasource model_name st in
    if type_eqb (get_type model) XGBOOST
    then
      let r := xgboost_pred datasource select result_table label_column
                 model (world st1) in
      (match fst r with Return _ => Return tt | Raise e => Raise e end,
       {| world := snd r;
          stdout := stdout st1;
          calls := calls st1
                   ++ [call_xgboost_pred datasource select result_table
                         label_column model] |})
    else
      (Raise (NotImplementedError (not_implemented_message (get_type model))),
       st1).
Proof.
  intros H. unfold submit_local_pred. rewrite (bind_load _ _ _ _ _ H).
  cbv zeta. destruct (type_eqb _ _); [|reflexivity].
  apply invoke_then_ret.
Qed.

(** C7: when the loaded model has the gradient-boosting tag,
    [submit_local_pred] loads the model and then calls the predict routine
    once, with (datasource, select, result_table, label_column, model) in
    this order; when the routine returns, whatever its value, the call
    returns [None], and an exception of the routine is passed on. *)
Theorem pred_calls_xgboost_pred
  (datasource original_sql select model_name : string)
  (label_column : PyObject) (model_params : Dict.t PyObject)
  (result_table user : string) (st : State) (model : Model) :
  fst (Model_load_from_db datasource model_name (world st)) = Return model ->
  get_type model = XGBOOST ->
  let run :=
    submit_local_pred datasource original_sql select model_name label_column
      model_params result_table user in
  let r :=
    xgboost_pred datasource select result_table label_column model
      (snd (Model_load_from_db datasource model_name (world st))) in
  called run st
  = [ call_load_from_db datasource model_name;
      call_xgboost_pred datasource select result_table label_column model ] /\
  fst (run st)
  = match fst r with Return _ => Return tt | Raise e => Raise e end /\
  world (snd (run st)) = snd r /\
  printed run st = [].
Proof.
  intros Hload Htype. cbv zeta.
  pose proof (submit_local_pred_run datasource original_sql select model_name
                label_column model_params result_table user st model Hload)
    as E.
  cbv zeta in E. rewrite Htype, type_eqb_refl in E.
  repeat split.
  - eapply called_after_load; [exact E|reflexivity].
  - now rewrite E.
  - now rewrite E.
  - unfold printed. rewrite E. simpl. apply skipn_all.
Qed.

(** *** Evaluate *)

Lemma submit_local_evaluate_run
  (datasource original_sql select model_name : string)
  (model_params : Dict.t string) (result_table user : string)
  (st : State) (model : Model) :
  fst (Model_load_from_db datasource model_name (world st)) = Return model ->
  submit_local_evaluate datasource original_sql select model_name
    model_params result_table user st
  = let st1 := loaded datasource model_name st in
    match get_meta model "label" with
    | MetaFeatureColumn fc =>
        match FeatureColumn.get_field_desc fc with
        | field_desc :: _ =>
            if type_eqb (get_type model) XGBOOST
            then
              let r := xgboost_evaluate datasource select result_table model
                         (FieldDesc.name field_desc)
                         (validation_metrics_of model_params) (world st1) in
              (match fst r with Return _ => Return tt | Raise e => Raise e end,
               {| world := snd r;
                  stdout := stdout st1;
                  calls := calls st1
                           ++ [call_xgboost_evaluate datasource select
                                 result_table model
                                 (FieldDesc.name field_desc)
                                 (validation_metrics_of model_params)] |})
            else
              (Raise (NotImplementedError
                        (not_implemented_message (get_type model))),
               st1)
        | [] => (Raise IndexError, st1)
        end
    | _ => (Raise AssertionError, st1)
    end.
Proof.
  intros H. unfold submit_local_evaluate. rewrite (bind_load _ _ _ _ _ H).
  cbv zeta. destruct (get_meta model "label") as [| |fc]; try reflexivity.
  destruct (FeatureColumn.get_field_desc fc) as [|d ds]; [reflexivity|].
  destruct (type_eqb _ _); [|reflexivity].
  apply invoke_then_ret.
Qed.

(** Every call of the evaluate routine that a run makes has the arguments
    the code builds for it. *)
Lemma evaluate_call_inv
  (datasource original_sql select model_name : string)
  (model_params : Dict.t string) (result_table user : string) (st : State)
  (datasource' select' result_table' : string) (model : Model)
  (pred_label_name : string) (validation_metrics : list string) :
  In (call_xgboost_evaluate datasource' select' result_table' model
        pred_label_name validation_metrics)
     (called (submit_local_evaluate datasource original_sql select model_name
                model_params result_table user) st) ->
  fst (Model_load_from_db datasource model_name (world st)) = Return model /\
  get_type model = XGBOOST /\
  (exists fc field_desc rest,
     get_meta model "label" = MetaFeatureColumn fc /\
     FeatureColumn.get_field_desc fc = field_desc :: rest /\
     pred_label_name = FieldDesc.name field_desc) /\
  validation_metrics = validation_metrics_of model_params /\
  (datasource', select', result_table') = (datasource, select, result_table).
Proof.
  intros Hin.
  destruct (fst (Model_load_from_db datasource model_name (world st)))
    as [m|e] eqn:Hload.
  - pose proof (submit_local_evaluate_run datasource original_sql select
                  model_name model_params result_table user st m Hload) as E.
    cbv zeta in E. unfold called in Hin. rewrite E in Hin. clear E.
    assert (Hno : forall r : outcome unit,
      In (call_xgboost_evaluate datasource' select' result_table' model
            pred_label_name validation_metrics)
         (skipn (List.length (calls st))
            (calls (snd (r, loaded datasource model_name st)))) -> False).
    { intros r H. simpl in H. rewrite skipn_all_app in H.
      destruct H as [H|[]]. discriminate. }
    destruct (get_meta m "label") as [| |fc] eqn:Hfc;
      try (now apply Hno in Hin).
    destruct (FeatureColumn.get_field_desc fc) as [|d ds] eqn:Hd;
      [now apply Hno in Hin|].
    destruct (type_eqb (get_type m) XGBOOST) eqn:Ht;
      [|now apply Hno in Hin].
    simpl in Hin. rewrite skipn_all_app2 in Hin. simpl in Hin.
    destruct Hin as [Hin|[Hin|[]]]; [discriminate|].
    injection Hin as <- <- <- <- <- <-.
    apply type_eqb_eq in Ht. repeat split; try assumption; try reflexivity.
    now exists fc, d, ds.
  - unfold called, submit_local_evaluate in Hin.
    rewrite (bind_load_raise _ _ _ _ _ Hload) in Hin. simpl in Hin.
    rewrite skipn_all_app in Hin. destruct Hin as [Hin|[]]. discriminate.
Qed.

(** C8: once the model is loaded, [submit_local_evaluate] fails with
    [AssertionError] right after the load, without running a backend
    routine, when the metadata entry "label" is not a feature column.
    When it is one, the run is one of three: [IndexError] after the load
    when the column has no field descriptor; [NotImplementedError] after
    the load when the model has not the gradient-boosting tag; and
    otherwise the run of the evaluate routine itself on (datasource,
    select, result_table, model, name of the first field descriptor,
    metrics), whose outcome and world are those of the call.  So the
    prediction-label name the routine is run with, and the one logged for
    every call of it, is the name of the first field descriptor. *)
Theorem evaluate_label_feature_column
  (datasource original_sql select model_name : string)
  (model_params : Dict.t string) (result_table user : string)
  (st : State) (model : Model) :
  fst (Model_load_from_db datasource model_name (world st)) = Return model ->
  let run :=
    submit_local_evaluate datasource original_sql select model_name
      model_params result_table user in
  let st1 := loaded datasource model_name st in
  (isinstance_FeatureColumn (get_meta model "label") = false ->
   run st = (Raise AssertionError, st1)) /\
  (forall fc : FeatureColumn.t,
     get_meta model "label" = MetaFeatureColumn fc ->
     (FeatureColumn.get_field_desc fc = [] ->
      run st = (Raise IndexError, st1)) /\
     (forall field_desc rest,
        FeatureColumn.get_field_desc fc = field_desc :: rest ->
        get_type model <> XGBOOST ->
        run st
        = (Raise (NotImplementedError
                    (not_implemented_message (get_type model))),
           st1)) /\
     (forall field_desc rest,
        FeatureColumn.get_field_desc fc = field_desc :: rest ->
        get_type model = XGBOOST ->
        let r :=
          xgboost_evaluate datasource select result_table model
            (FieldDesc.name field_desc)
            (validation_metrics_of model_params) (world st1) in
        run st
        = (match fst r with Return _ => Return tt | Raise e => Raise e end,
           {| world := snd r;
              stdout := stdout st1;
              calls :=
                calls st1
                ++ [call_xgboost_evaluate datasource select result_table
                      model (FieldDesc.name field_desc)
                      (validation_metrics_of model_params)] |})) /\
     (forall datasource' select' result_table' model' pred_label_name
             validation_metrics,
        In (call_xgboost_evaluate datasource' select' result_table' model'
              pred_label_name validation_metrics) (called run st) ->
        exists field_desc rest,
          FeatureColumn.get_field_desc fc = field_desc :: rest /\
          pred_label_name = FieldDesc.name field_desc)).
Proof.
  intros Hload. cbv zeta.
  pose proof (submit_local_evaluate_run datasource original_sql select
                model_name model_params result_table user st model Hload)
    as E.
  cbv zeta in E. split.
  - intros Hfc. rewrite E.
    destruct (get_meta model "label") as [| |fc]; try discriminate;
      reflexivity.
  - intros fc Hfc. rewrite Hfc in E. repeat split.
    + intros Hd. now rewrite Hd in E.
    + intros d rest Hd Ht. apply type_eqb_neq in Ht.
      now rewrite Hd, Ht in E.
    + intros d rest Hd Ht. now rewrite Hd, Ht, type_eqb_refl in E.
    + intros ds' sel' rt' m' pl vm Hin.
      apply evaluate_call_inv in Hin
        as (Hload' & _ & (fc' & d & rest & Hfc' & Hd & Hpl) & _).
      rewrite Hload in Hload'. injection Hload' as <-.
      rewrite Hfc in Hfc'. injection Hfc' as <-. now exists d, rest.
Qed.

(** C4: the metrics list of [submit_local_evaluate] is the value of
    "validation.metrics" split at its commas when the key is present (the
    pieces hold no comma and joined by commas give the value back), and
    the single metric "Accuracy" when it is absent; it is the list every
    call of the evaluate routine is given. *)
Theorem evaluate_metrics_list
  (datasource original_sql select model_name : string)
  (model_params : Dict.t string) (result_table user : string) (st : State) :
  (forall v : string,
     Dict.get model_params "validation.metrics" = Some v ->
     validation_metrics_of model_params = Str.split v "," /\
     Str.join "," (validation_metrics_of model_params) = v /\
     Forall (fun metric => Str.contains metric "," = false)
            (validation_metrics_of model_params)) /\
  (Dict.get model_params "validation.metrics" = None ->
   validation_metrics_of model_params = ["Accuracy"]) /\
  (forall datasource' select' result_table' model pred_label_name
          validation_metrics,
     In (call_xgboost_evaluate datasource' select' result_table' model
           pred_label_name validation_metrics)
        (called (submit_local_evaluate datasource original_sql select
                   model_name model_params result_table user) st) ->
     validation_metrics = validation_metrics_of model_params).
Proof.
  unfold validation_metrics_of, Dict.get_default. repeat split.
  - now rewrite H.
  - rewrite H. apply StrFacts.join_split.
  - rewrite H. apply StrFacts.split_pieces.
  - intros H. now rewrite H.
  - intros ds' sel' rt' m pl vm Hin.
    now apply evaluate_call_inv in Hin as (_ & _ & _ & -> & _).
Qed.

(** C10: the default is for an absent key only.  With the key present and
    its value the empty string the metrics list is the one empty name, and
    the list is ["Accuracy"] only when the key is absent or its value is
    "Accuracy" itself. *)
Theorem evaluate_metrics_of_empty_value (model_params : Dict.t string) :
  (Dict.get model_params "validation.metrics" = Some "" ->
   validation_metrics_of model_params = [""] /\
   validation_metrics_of model_params <> ["Accuracy"]) /\
  (validation_metrics_of model_params = ["Accuracy"] ->
   Dict.get model_params "validation.metrics" = None \/
   Dict.get model_params "validation.metrics" = Some "Accuracy").
Proof.
  unfold validation_metrics_of, Dict.get_default. split.
  - intros H. rewrite H. split; [reflexivity|discriminate].
  - destruct (Dict.get model_params "validation.metrics") as [v|];
      [|now left].
    intros H. right. f_equal.
    rewrite <- (StrFacts.join_split "," v).
    change (String "," "") with ",". now rewrite H.
Qed.

(** *** Explain *)

(** The loop never raises [KeyError]: it looks up keys of the dictionary
    it iterates over. *)
Lemma summary_loop_returns (ks : list string)
  (model_params summary_params : Dict.t PyObject) :
  (forall k, In k ks -> In k (Dict.keys model_params)) ->
  exists result, summary_loop ks model_params summary_params = Return result.
Proof.
  revert summary_params.
  induction ks as [|k ks IH]; intros acc Hks; cbn [summary_loop].
  - now exists acc.
  - destruct (Str.startswith k "summary.").
    + destruct (DictFacts.get_of_key model_params k) as [v Hv];
        [apply Hks; now left|].
      rewrite Hv. apply IH. intros k' Hk'. apply Hks. now right.
    + apply IH. intros k' Hk'. apply Hks. now right.
Qed.

Lemma summary_params_of_returns (model_params : Dict.t PyObject) :
  exists summary_params, summary_params_of model_params = Return summary_params.
Proof. apply summary_loop_returns. auto. Qed.

Lemma submit_local_explain_run
  (datasource original_sql select model_name : string)
  (model_params : Dict.t PyObject) (result_table explainer user : string)
  (st : State) (model : Model) (summary_params : Dict.t PyObject) :
  fst (Model_load_from_db datasource model_name (world st)) = Return model ->
  summary_params_of model_params = Return summary_params ->
  submit_local_explain datasource original_sql select model_name model_params
    result_table explainer user st
  = let st1 := loaded datasource model_name st in
    if type_eqb (get_type model) XGBOOST
    then
      let r := xgboost_explain datasource select explainer summary_params
                 result_table model (world st1) in
      (match fst r with Return _ => Return tt | Raise e => Raise e end,
       {| world := snd r;
          stdout := stdout st1;
          calls := calls st1
                   ++ [call_xgboost_explain datasource select explainer
                         summary_params result_table model] |})
    else
      (Raise (NotImplementedError (not_implemented_message (get_type model))),
       st1).
Proof.
  intros H Hs. unfold submit_local_explain. rewrite (bind_load _ _ _ _ _ H).
  unfold bind at 1, lift. rewrite Hs.
  cbv zeta. destruct (type_eqb _ _); [|reflexivity].
  apply invoke_then_ret.
Qed.

(** *** Unsupported model types *)

(** The message names the type tag. *)
Lemma not_implemented_message_contains (t : EstimatorType) :
  Str.contains (not_implemented_message t) (type_str t) = true.
Proof. apply StrFacts.contains_suffix. Qed.

(** C2, as the code has it: for a loaded model whose type tag is not the
    gradient-boosting one, [submit_local_pred] and [submit_local_explain]
    raise [NotImplementedError] with a message that contains the string
    form of the tag, and [submit_local_evaluate] does so when the metadata
    entry "label" is a feature column with at least one field descriptor
    (it checks the label first). *)
Theorem unsupported_type_not_implemented
  (datasource original_sql select model_name result_table user : string)
  (st : State) (model : Model) :
  fst (Model_load_from_db datasource model_name (world st)) = Return model ->
  get_type model <> XGBOOST ->
  let msg := "not implemented model type: " ++ type_str (get_type model) in
  Str.contains msg (type_str (get_type model)) = true /\
  (forall (label_column : PyObject) (model_params : Dict.t PyObject),
     fst (submit_local_pred datasource original_sql select model_name
            label_column model_params result_table user st)
     = Raise (NotImplementedError msg)) /\
  (forall (model_params : Dict.t PyObject) (explainer : string),
     fst (submit_local_explain datasource original_sql select model_name
            model_params result_table explainer user st)
     = Raise (NotImplementedError msg)) /\
  (forall (model_params : Dict.t string) fc field_desc rest,
     get_meta model "label" = MetaFeatureColumn fc ->
     FeatureColumn.get_field_desc fc = field_desc :: rest ->
     fst (submit_local_evaluate datasource original_sql select model_name
            model_params result_table user st)
     = Raise (NotImplementedError msg)).
Proof.
  intros Hload Htype. apply type_eqb_neq in Htype. cbv zeta.
  fold (not_implemented_message (get_type model)).
  split; [apply not_implemented_message_contains|]. repeat split.
  - intros lc mp.
    rewrite (submit_local_pred_run _ _ _ _ _ _ _ _ _ _ Hload).
    cbv zeta. now rewrite Htype.
  - intros mp explainer.
    destruct (summary_params_of_returns mp) as [sp Hsp].
    rewrite (submit_local_explain_run _ _ _ _ _ _ _ _ _ _ _ Hload Hsp).
    cbv zeta. now rewrite Htype.
  - intros mp fc d rest Hfc Hd.
    rewrite (submit_local_evaluate_run _ _ _ _ _ _ _ _ _ Hload).
    cbv zeta. now rewrite Hfc, Hd, Htype.
Qed.

(** The summary parameters of a gradient-boosting model reach the explain
    routine as the loop leaves them. *)
Lemma explain_calls_xgboost_explain
  (datasource original_sql select model_name : string)
  (model_params : Dict.t PyObject) (result_table explainer user : string)
  (st : State) (model : Model) (summary_params : Dict.t PyObject) :
  fst (Model_load_from_db datasource model_name (world st)) = Return model ->
  get_type model = XGBOOST ->
  summary_params_of model_params = Return summary_params ->
  called (submit_local_explain datasource original_sql select model_name
            model_params result_table explainer user) st
  = [ call_load_from_db datasource model_name;
      call_xgboost_explain datasource select explainer summary_params
        result_table model ].
Proof.
  intros Hload Ht Hs.
  pose proof (submit_local_explain_run datasource original_sql select
                model_name model_params result_table explainer user st model
                summary_params Hload Hs) as E.
  cbv zeta in E. rewrite Ht, type_eqb_refl in E.
  eapply called_after_load; [exact E|reflexivity].
Qed.

(** C5, at the keys where the code departs from it: [replace] removes
    every occurrence of "summary." from a key, not the leading one only,
    so a key with a second occurrence loses it too, and two keys of the
    parameters can end as one entry of the summary. *)
Theorem summary_key_loses_every_occurrence (v v' : PyObject) :
  summary_params_of [("summary.a.summary.b", v)] = Return [("a.b", v)] /\
  summary_params_of [("summary.x", v); ("summary.summary.x", v')]
  = Return [("x", v')].
Proof. split; reflexivity. Qed.

(** The example of the specification. *)
Lemma summary_params_example (bar x : PyObject) :
  summary_params_of [("summary.plot_type", bar); ("other", x)]
  = Return [("plot_type", bar)].
Proof. reflexivity. Qed.

(** *** The summary parameters against the specification *)

Lemma summary_entries_app {V : Type} (d d' : Dict.t V) :
  summary_entries (d ++ d')%list
  = (summary_entries d ++ summary_entries d')%list.
Proof.
  induction d as [|[k v] d IH]; [reflexivity|].
  cbn [summary_entries app].
  destruct (Str.startswith k "summary."); [|assumption].
  rewrite IH. reflexivity.
Qed.

Lemma summary_entries_key {V : Type} (d : Dict.t V) (k : string) :
  In k (Dict.keys (summary_entries d)) ->
  In ("summary." ++ k) (Dict.keys d).
Proof.
  induction d as [|[k' v'] d IH]; [contradiction|].
  cbn [summary_entries Dict.keys map fst].
  destruct (Str.startswith k' "summary.") eqn:E.
  - cbn [Dict.keys map fst In]. intros [H|H].
    + left. rewrite <- H.
      exact (StrFacts.startswith_drop k' "summary." E).
    + right. now apply IH.
  - intros H. right. now apply IH.
Qed.

Lemma summary_loop_meets_spec (todo done : Dict.t PyObject) :
  Dict.wf (done ++ todo)%list ->
  (forall k, In k (Dict.keys todo) ->
             Str.startswith k "summary." = true ->
             Str.contains (drop (String.length "summary.") k) "summary."
             = false) ->
  summary_loop (Dict.keys todo) (done ++ todo)%list (summary_entries done)
  = Return (summary_entries (done ++ todo)%list).
Proof.
  revert done. induction todo as [|[k v] todo IH]; intros done Hwf Hocc.
  - now rewrite app_nil_r.
  - cbn [Dict.keys map fst summary_loop].
    assert (Hfresh : ~ In k (Dict.keys done)).
    { unfold Dict.wf, Dict.keys in Hwf. rewrite map_app in Hwf.
      apply NoDup_remove_2 in Hwf. intros H. apply Hwf.
      apply in_or_app. now left. }
    assert (Hstep : (done ++ (k, v) :: todo = (done ++ [(k, v)]) ++ todo)%list)
      by now rewrite <- app_assoc.
    assert (Hocc' : forall k0, In k0 (Dict.keys todo) ->
              Str.startswith k0 "summary." = true ->
              Str.contains (drop (String.length "summary.") k0) "summary."
              = false)
      by (intros k0 H; apply Hocc; now right).
    destruct (Str.startswith k "summary.") eqn:E.
    + rewrite (DictFacts.get_app_fresh done todo k v Hfresh).
      rewrite StrFacts.replace_only_prefix;
        [|discriminate|assumption|apply Hocc; [now left|assumption]].
      rewrite DictFacts.set_fresh.
      * rewrite Hstep.
        replace (summary_entries done
                 ++ [(drop (String.length "summary.") k, v)])%list
          with (summary_entries (done ++ [(k, v)])%list).
        -- apply IH; [now rewrite <- Hstep|assumption].
        -- rewrite summary_entries_app. cbn [summary_entries].
           now rewrite E.
      * intros H. apply summary_entries_key in H. apply Hfresh.
        now rewrite <- (StrFacts.startswith_drop k "summary." E) in H.
    + rewrite Hstep.
      replace (summary_entries done)
        with (summary_entries (done ++ [(k, v)])%list).
      * apply IH; [now rewrite <- Hstep|assumption].
      * rewrite summary_entries_app. cbn [summary_entries].
        rewrite E. apply app_nil_r.
Qed.

(** For parameters in which "summary." occurs in a key as a leading prefix
    only, the loop builds the sub-map the specification describes: an
    entry for each key with the prefix, in the order of the parameters,
    under the key without the prefix and with the same value. *)
Theorem summary_params_meets_spec (model_params : Dict.t PyObject) :
  Dict.wf model_params ->
  (forall k, In k (Dict.keys model_params) ->
             Str.startswith k "summary." = true ->
             Str.contains (drop (String.length "summary.") k) "summary."
             = false) ->
  summary_params_of model_params = Return (summary_entries model_params).
Proof.
  intros Hwf Hocc. apply (summary_loop_meets_spec model_params []); assumption.
Qed.

(** *** Show-train *)

(** Printing the lines of a list adds them to the output in order. *)
Lemma for_each_print (lines : list string) (st : State) :
  for_each lines print st
  = (Return tt,
     {| world := world st;
        stdout := stdout st ++ lines;
        calls := calls st |}).
Proof.
  revert st. induction lines as [|line lines IH]; intros st; simpl.
  - unfold ret. rewrite app_nil_r. now destruct st.
  - unfold bind, print. rewrite IH. simpl. now rewrite <- app_assoc.
Qed.

(** The whole of a run of [submit_local_show_train], by what the registry
    and the writer answer. *)
Lemma submit_local_show_train_run (datasource model_name : string)
  (st : State) :
  submit_local_show_train datasource model_name st
  = let r := read_metadata_from_db datasource model_name (world st) in
    let read := call_read_metadata_from_db datasource model_name in
    match fst r with
    | Raise e =>
        (Raise e,
         {| world := snd r; stdout := stdout st;
            calls := calls st ++ [read] |})
    | Return meta =>
        let original_sql := Dict.get_default meta "original_sql" MetaNone in
        if truthy original_sql
        then
          let result_set := [(model_name, original_sql)] in
          let header := ["Model"; "Train Statement"] in
          let dump := call_dump_strings result_set header in
          match ProtobufWriter_dump_strings result_set header with
          | Return lines =>
              (Return tt,
               {| world := snd r; stdout := stdout st ++ lines;
                  calls := (calls st ++ [read]) ++ [dump] |})
          | Raise e =>
              (Raise e,
               {| world := snd r; stdout := stdout st;
                  calls := (calls st ++ [read]) ++ [dump] |})
          end
        else
          (Raise (ValueError "cannot find the train SQL statement"),
           {| world := snd r; stdout := stdout st;
              calls := calls st ++ [read] |})
    end.
Proof.
  unfold submit_local_show_train, bind at 1, read_metadata, invoke.
  cbv zeta.
  destruct (read_metadata_from_db datasource model_name (world st))
    as [[meta|e] w]; [|reflexivity].
  cbn [fst snd].
  destruct (truthy (Dict.get_default meta "original_sql" MetaNone));
    [|reflexivity].
  cbn [negb]. unfold bind, dump_strings, invoke. cbn [world stdout calls].
  destruct (ProtobufWriter_dump_strings _ _) as [lines|e]; [|reflexivity].
  now rewrite for_each_print.
Qed.

(** C6: with the metadata read, [submit_local_show_train] raises
    [ValueError] when the metadata have no "original_sql" entry or an
    empty one ([None] or the empty string), printing nothing; otherwise it
    gives the writer the one row (model_name, original_sql) under the
    header ["Model", "Train Statement"] and prints each line the writer
    returns, in order. *)
Theorem show_train_behaviour (datasource model_name : string) (st : State)
  (meta : Dict.t MetaValue) :
  fst (read_metadata_from_db datasource model_name (world st)) = Return meta ->
  let run := submit_local_show_train datasource model_name in
  let read := call_read_metadata_from_db datasource model_name in
  (Dict.get meta "original_sql" = None \/
   Dict.get meta "original_sql" = Some MetaNone \/
   Dict.get meta "original_sql" = Some (MetaStr "") ->
   fst (run st) = Raise (ValueError "cannot find the train SQL statement") /\
   printed run st = [] /\
   called run st = [read]) /\
  (forall original_sql : MetaValue,
     Dict.get meta "original_sql" = Some original_sql ->
     original_sql <> MetaNone ->
     original_sql <> MetaStr "" ->
     called run st
     = [ read;
         call_dump_strings [(model_name, original_sql)]
           ["Model"; "Train Statement"] ] /\
     (forall lines : list string,
        ProtobufWriter_dump_strings [(model_name, original_sql)]
          ["Model"; "Train Statement"] = Return lines ->
        fst (run st) = Return tt /\
        printed run st = lines /\
        stdout (snd (run st)) = (stdout st ++ lines)%list)).
Proof.
  intros Hread. cbv zeta.
  pose proof (submit_local_show_train_run datasource model_name st) as E.
  cbv zeta in E. rewrite Hread in E. unfold Dict.get_default in E.
  unfold printed, called. split.
  - intros H.
    assert (Hf : truthy match Dict.get meta "original_sql" with
                        | Some v => v
                        | None => MetaNone
                        end = false)
      by (destruct H as [H|[H|H]]; now rewrite H).
    rewrite Hf in E. rewrite E. cbn [fst snd stdout calls].
    repeat split; [apply skipn_all|apply skipn_all_app].
  - intros v Hv Hnone Hempty. rewrite Hv in E.
    assert (Ht : truthy v = true).
    { destruct v as [|s|fc]; [contradiction| |reflexivity].
      simpl. destruct (String.eqb_spec s ""); [subst; contradiction|].
      reflexivity. }
    rewrite Ht in E. split.
    + destruct (ProtobufWriter_dump_strings _ _); rewrite E;
        cbn [snd calls]; apply (skipn_all_app2 _ [_] [_]).
    + intros lines Hl. rewrite Hl in E. rewrite E. cbn [fst snd stdout].
      repeat split. apply skipn_all_app.
Qed.

(** What a run prints depends on the state through the registry's answer
    only. *)
Lemma printed_by_metadata (datasource model_name : string)
  (st1 st2 : State) :
  fst (read_metadata_from_db datasource model_name (world st1))
  = fst (read_metadata_from_db datasource model_name (world st2)) ->
  printed (submit_local_show_train datasource model_name) st1
  = printed (submit_local_show_train datasource model_name) st2.
Proof.
  intros H. unfold printed.
  rewrite (submit_local_show_train_run datasource model_name st1).
  rewrite (submit_local_show_train_run datasource model_name st2).
  cbv zeta. rewrite H.
  destruct (fst (read_metadata_from_db datasource model_name (world st2)))
    as [meta|e]; cbn [snd stdout]; [|now rewrite !skipn_all].
  destruct (truthy _); cbn [snd stdout]; [|now rewrite !skipn_all].
  destruct (ProtobufWriter_dump_strings _ _) as [lines|e]; cbn [snd stdout];
    now rewrite ?skipn_all_app, ?skipn_all.
Qed.

(** C9: two runs of [submit_local_show_train] with the same datasource and
    model name, from states in which the registry gives the same metadata
    (or the same failure), print the same lines and end the same way: the
    output is a function of what is stored. *)
Theorem show_train_deterministic (datasource model_name : string)
  (st1 st2 : State) :
  fst (read_metadata_from_db datasource model_name (world st1))
  = fst (read_metadata_from_db datasource model_name (world st2)) ->
  printed (submit_local_show_train datasource model_name) st1
  = printed (submit_local_show_train datasource model_name) st2 /\
  fst (submit_local_show_train datasource model_name st1)
  = fst (submit_local_show_train datasource model_name st2).
Proof.
  intros H. unfold printed.
  rewrite !submit_local_show_train_run. cbv zeta. rewrite H.
  destruct (fst (read_metadata_from_db datasource model_name (world st2)))
    as [meta|e]; cbn [fst snd stdout].
  - destruct (truthy _).
    + destruct (ProtobufWriter_dump_strings _ _) as [lines|e];
        cbn [fst snd stdout];
        now rewrite ?skipn_all_app, ?skipn_all.
    + cbn [fst snd stdout]. now rewrite !skipn_all.
  - now rewrite !skipn_all.
Qed.

(** Repeating the call: when the registry answers the second read as it
    answered the first, the second run prints the lines of the first
    again. *)
Lemma show_train_twice (datasource model_name : string) (st : State) :
  let run := submit_local_show_train datasource model_name in
  let st' := snd (run st) in
  fst (read_metadata_from_db datasource model_name (world st'))
  = fst (read_metadata_from_db datasource model_name (world st)) ->
  stdout (snd (run st'))
  = (stdout st ++ printed run st ++ printed run st)%list.
Proof.
  cbv zeta. intros H.
  pose proof (printed_by_metadata datasource model_name _ _ H) as Hp.
  clear H.
  assert (Hgrow : forall s, exists lines,
            stdout (snd (submit_local_show_train datasource model_name s))
            = (stdout s ++ lines)%list).
  { intros s. rewrite submit_local_show_train_run. cbv zeta.
    destruct (fst (read_metadata_from_db _ _ _));
      [|exists []; simpl; now rewrite app_nil_r].
    destruct (truthy _); [|exists []; simpl; now rewrite app_nil_r].
    destruct (ProtobufWriter_dump_strings _ _) as [lines|e];
      [now exists lines|exists []; simpl; now rewrite app_nil_r]. }
  unfold printed in *.
  destruct (Hgrow st) as [l1 E1].
  destruct (Hgrow (snd (submit_local_show_train datasource model_name st)))
    as [l2 E2].
  rewrite E2, E1 in Hp. rewrite !skipn_all_app in Hp. subst l2.
  rewrite E2, E1. rewrite skipn_all_app. now rewrite <- app_assoc.
Qed.

(** ** Failures of the collaborators *)

(** When the registry cannot load the model, predict, evaluate and explain
    end with the registry's exception right after the load: no backend
    routine is called, nothing is printed and the world is as the registry
    left it. *)
Theorem load_failure_passes_through
  (datasource original_sql select model_name result_table user : string)
  (st : State) (e : exn) :
  fst (Model_load_from_db datasource model_name (world st)) = Raise e ->
  (forall (label_column : PyObject) (model_params : Dict.t PyObject),
     submit_local_pred datasource original_sql select model_name
       label_column model_params result_table user st
     = (Raise e, loaded datasource model_name st)) /\
  (forall model_params : Dict.t string,
     submit_local_evaluate datasource original_sql select model_name
       model_params result_table user st
     = (Raise e, loaded datasource model_name st)) /\
  (forall (model_params : Dict.t PyObject) (explainer : string),
     submit_local_explain datasource original_sql select model_name
       model_params result_table explainer user st
     = (Raise e, loaded datasource model_name st)).
Proof.
  intros H. repeat split; intros;
    unfold submit_local_pred, submit_local_evaluate, submit_local_explain;
    now rewrite (bind_load_raise _ _ _ _ _ H).
Qed.

(** When the registry cannot read the metadata, show-train ends with the
    registry's exception: the writer is not called and nothing is
    printed. *)
Theorem show_train_read_failure (datasource model_name : string)
  (st : State) (e : exn) :
  fst (read_metadata_from_db datasource model_name (world st)) = Raise e ->
  fst (submit_local_show_train datasource model_name st) = Raise e /\
  stdout (snd (submit_local_show_train datasource model_name st)) = stdout st /\
  called (submit_local_show_train datasource model_name) st
  = [call_read_metadata_from_db datasource model_name].
Proof.
  intros H. unfold called.
  rewrite submit_local_show_train_run. cbv zeta. rewrite H. simpl.
  repeat split. apply skipn_all_app.
Qed.

(** Show-train changes the world through its one read of the registry
    only, and calls nothing but the registry and, at most once and after
    it, the writer on a single row under the fixed header. *)
Theorem show_train_calls (datasource model_name : string) (st : State) :
  world (snd (submit_local_show_train datasource model_name st))
  = snd (read_metadata_from_db datasource model_name (world st)) /\
  (called (submit_local_show_train datasource model_name) st
   = [call_read_metadata_from_db datasource model_name] \/
   exists original_sql : MetaValue,
     truthy original_sql = true /\
     called (submit_local_show_train datasource model_name) st
     = [ call_read_metadata_from_db datasource model_name;
         call_dump_strings [(model_name, original_sql)]
           ["Model"; "Train Statement"] ]).
Proof.
  unfold called. rewrite submit_local_show_train_run. cbv zeta.
  destruct (fst (read_metadata_from_db datasource model_name (world st)))
    as [meta|e].
  - destruct (truthy (Dict.get_default meta "original_sql" MetaNone)) eqn:Ht.
    + split.
      * now destruct (ProtobufWriter_dump_strings _ _).
      * right. eexists. split; [exact Ht|].
        destruct (ProtobufWriter_dump_strings _ _); cbn [snd calls];
          apply (skipn_all_app2 _ [_] [_]).
    + split; [reflexivity|]. left. cbn [snd calls]. apply skipn_all_app.
  - split; [reflexivity|]. left. cbn [snd calls]. apply skipn_all_app.
Qed.

(** ** Evaluate and explain on a gradient-boosting model *)

(** A label column without field descriptors makes evaluate fail with
    [IndexError] right after the load, whatever the type of the model. *)
Theorem evaluate_without_field_descriptor
  (datasource original_sql select model_name : string)
  (model_params : Dict.t string) (result_table user : string)
  (st : State) (model : Model) (fc : FeatureColumn.t) :
  fst (Model_load_from_db datasource model_name (world st)) = Return model ->
  get_meta model "label" = MetaFeatureColumn fc ->
  FeatureColumn.get_field_desc fc = [] ->
  submit_local_evaluate datasource original_sql select model_name
    model_params result_table user st
  = (Raise IndexError, loaded datasource model_name st).
Proof.
  intros Hload Hfc Hd.
  rewrite (submit_local_evaluate_run _ _ _ _ _ _ _ _ _ Hload).
  cbv zeta. now rewrite Hfc, Hd.
Qed.

(** On a gradient-boosting model with a proper label column, evaluate
    returns [None] when the evaluate routine returns, whatever its value,
    and passes on what the routine raises; the world is as the routine
    leaves it and nothing is printed. *)
Theorem evaluate_outcome
  (datasource original_sql select model_name : string)
  (model_params : Dict.t string) (result_table user : string)
  (st : State) (model : Model) (fc : FeatureColumn.t)
  (field_desc : FieldDesc.t) (rest : list FieldDesc.t) :
  fst (Model_load_from_db datasource model_name (world st)) = Return model ->
  get_type model = XGBOOST ->
  get_meta model "label" = MetaFeatureColumn fc ->
  FeatureColumn.get_field_desc fc = field_desc :: rest ->
  let run :=
    submit_local_evaluate datasource original_sql select model_name
      model_params result_table user in
  let r :=
    xgboost_evaluate datasource select result_table model
      (FieldDesc.name field_desc) (validation_metrics_of model_params)
      (snd (Model_load_from_db datasource model_name (world st))) in
  fst (run st)
  = match fst r with Return _ => Return tt | Raise e => Raise e end /\
  world (snd (run st)) = snd r /\
  stdout (snd (run st)) = stdout st.
Proof.
  intros Hload Ht Hfc Hd. cbv zeta.
  rewrite (submit_local_evaluate_run _ _ _ _ _ _ _ _ _ Hload).
  cbv zeta. rewrite Hfc, Hd, Ht, type_eqb_refl. repeat split.
Qed.

(** On a gradient-boosting model explain always reaches the explain
    routine: the loop over the parameters cannot fail, the routine is
    called once with (datasource, select, explainer, summary_params,
    result_table, model), and the run returns [None] when the routine
    returns and passes on what it raises. *)
Theorem explain_outcome
  (datasource original_sql select model_name : string)
  (model_params : Dict.t PyObject) (result_table explainer user : string)
  (st : State) (model : Model) :
  fst (Model_load_from_db datasource model_name (world st)) = Return model ->
  get_type model = XGBOOST ->
  exists summary_params : Dict.t PyObject,
    summary_params_of model_params = Return summary_params /\
    let run :=
      submit_local_explain datasource original_sql select model_name
        model_params result_table explainer user in
    let r :=
      xgboost_explain datasource select explainer summary_params
        result_table model
        (snd (Model_load_from_db datasource model_name (world st))) in
    called run st
    = [ call_load_from_db datasource model_name;
        call_xgboost_explain datasource select explainer summary_params
          result_table model ] /\
    fst (run st)
    = match fst r with Return _ => Return tt | Raise e => Raise e end /\
    world (snd (run st)) = snd r /\
    stdout (snd (run st)) = stdout st.
Proof.
  intros Hload Ht.
  destruct (summary_params_of_returns model_params) as [sp Hsp].
  exists sp. split; [assumption|]. cbv zeta.
  pose proof (submit_local_explain_run datasource original_sql select
                model_name model_params result_table explainer user st model
                sp Hload Hsp) as E.
  cbv zeta in E. rewrite Ht, type_eqb_refl in E. repeat split.
  - eapply called_after_load; [exact E|reflexivity].
  - now rewrite E.
  - now rewrite E.
  - now rewrite E.
Qed.

(** ** What a run leaves behind *)

(** For a model without a local backend, predict, evaluate and explain do
    nothing after the load: no backend routine is called, whatever the
    label of the model is, and the world is as the registry left it. *)
Theorem unsupported_type_stops_after_load
  (datasource original_sql select model_name result_table user : string)
  (st : State) (model : Model) :
  fst (Model_load_from_db datasource model_name (world st)) = Return model ->
  get_type model <> XGBOOST ->
  (forall (label_column : PyObject) (model_params : Dict.t PyObject),
     snd (submit_local_pred datasource original_sql select model_name
            label_column model_params result_table user st)
     = loaded datasource model_name st) /\
  (forall model_params : Dict.t string,
     snd (submit_local_evaluate datasource original_sql select model_name
            model_params result_table user st)
     = loaded datasource model_name st) /\
  (forall (model_params : Dict.t PyObject) (explainer : string),
     snd (submit_local_explain datasource original_sql select model_name
            model_params result_table explainer user st)
     = loaded datasource model_name st).
Proof.
  intros Hload Htype. apply type_eqb_neq in Htype. repeat split.
  - intros lc mp.
    rewrite (submit_local_pred_run _ _ _ _ _ _ _ _ _ _ Hload).
    cbv zeta. now rewrite Htype.
  - intros mp.
    rewrite (submit_local_evaluate_run _ _ _ _ _ _ _ _ _ Hload).
    cbv zeta. rewrite Htype.
    destruct (get_meta model "label") as [| |fc]; try reflexivity.
    now destruct (FeatureColumn.get_field_desc fc).
  - intros mp explainer.
    destruct (summary_params_of_returns mp) as [sp Hsp].
    rewrite (submit_local_explain_run _ _ _ _ _ _ _ _ _ _ _ Hload Hsp).
    cbv zeta. now rewrite Htype.
Qed.

(** ** More on the selection, the metrics and the summary parameters *)

(** The selection reads the first seven characters of the name only: a
    shorter name selects the deep-learning routine, and whatever follows
    the first seven characters changes nothing. *)
Theorem train_selection_reads_seven_characters (estimator_string : string) :
  (String.length estimator_string < 7 ->
   select_train_func estimator_string = tf_train) /\
  (forall suffix : string,
     7 <= String.length estimator_string ->
     select_train_func (estimator_string ++ suffix)
     = select_train_func estimator_string) /\
  (forall suffix : string,
     select_train_func estimator_string = xgboost_train ->
     select_train_func (estimator_string ++ suffix) = xgboost_train).
Proof.
  assert (Hlong : forall suffix : string,
            7 <= String.length estimator_string ->
            select_train_func (estimator_string ++ suffix)
            = select_train_func estimator_string).
  { intros suffix H. unfold select_train_func.
    rewrite StrFacts.lower_app, StrFacts.startswith_app_long; [reflexivity|].
    now rewrite StrFacts.lower_length. }
  assert (Hshort : String.length estimator_string < 7 ->
                   select_train_func estimator_string = tf_train).
  { intros H. apply select_train_func_tf, StrFacts.startswith_short.
    now rewrite StrFacts.lower_length. }
  repeat split; [exact Hshort|exact Hlong|].
  intros suffix H.
  destruct (Nat.lt_ge_cases (String.length estimator_string) 7) as [Hl|Hl].
  - rewrite (Hshort Hl) in H. discriminate.
  - now rewrite Hlong.
Qed.

(** Evaluate always has at least one metric, and as many as the option
    has commas plus one: an empty piece, as before a leading or after a
    trailing comma, is a metric too. *)
Theorem evaluate_metrics_count (model_params : Dict.t string) :
  validation_metrics_of model_params <> [] /\
  (forall v : string,
     Dict.get model_params "validation.metrics" = Some v ->
     List.length (validation_metrics_of model_params)
     = S (count_char "," v)).
Proof.
  unfold validation_metrics_of, Dict.get_default. split.
  - apply StrFacts.split_not_nil.
  - intros v H. rewrite H. apply StrFacts.split_length.
Qed.

(** What the loop of explain leaves in [summary_params] when it started
    from [acc] and visited the keys [ks]. *)
Lemma summary_loop_inv (ks : list string)
  (model_params acc result : Dict.t PyObject) :
  summary_loop ks model_params acc = Return result ->
  (Dict.wf acc -> Dict.wf result) /\
  (forall k' : string,
     In k' (Dict.keys result) <->
     In k' (Dict.keys acc) \/
     exists k, In k ks /\ Str.startswith k "summary." = true /\
               Str.replace k "summary." "" = k') /\
  (forall (k' : string) (v : PyObject),
     Dict.get result k' = Some v ->
     Dict.get acc k' = Some v \/
     exists k, In k ks /\ Str.startswith k "summary." = true /\
               Str.replace k "summary." "" = k' /\
               Dict.get model_params k = Some v).
Proof.
  revert acc. induction ks as [|k ks IH]; intros acc H;
    cbn [summary_loop] in H.
  - injection H as <-. split; [auto|]. split; [|auto].
    intros k'. split; [auto|]. intros [H|(k & [] & _)]. exact H.
  - destruct (Str.startswith k "summary.") eqn:E.
    + destruct (Dict.get model_params k) as [v|] eqn:Hv; [|discriminate].
      apply IH in H as (Hwf & Hkeys & Hvals). split; [|split].
      * intros Hacc. now apply Hwf, DictFacts.wf_set.
      * intros k'. rewrite Hkeys, DictFacts.keys_set. split.
        -- intros [[->|Hin]|(k0 & Hin & Hs & Hr)].
           ++ right. exists k. repeat split; [now left|assumption].
           ++ now left.
           ++ right. exists k0. repeat split; [now right|assumption..].
        -- intros [Hin|(k0 & [<-|Hin] & Hs & Hr)].
           ++ left. now right.
           ++ left. left. now symmetry.
           ++ right. now exists k0.
      * intros k' v' Hg.
        apply Hvals in Hg as [Hg|(k0 & Hin & Hs & Hr & Hg)].
        -- destruct (String.eqb_spec k' (Str.replace k "summary." ""))
             as [->|Hne].
           ++ rewrite DictFacts.get_set_same in Hg. injection Hg as <-.
              right. exists k. repeat split; [now left|assumption..].
           ++ rewrite DictFacts.get_set_other in Hg by assumption.
              now left.
        -- right. exists k0. repeat split; [now right|assumption..].
    + apply IH in H as (Hwf & Hkeys & Hvals). split; [assumption|split].
      * intros k'. rewrite Hkeys. split.
        -- intros [Hin|(k0 & Hin & Hs & Hr)]; [now left|].
           right. exists k0. repeat split; [now right|assumption..].
        -- intros [Hin|(k0 & [<-|Hin] & Hs & Hr)]; [now left|congruence|].
           right. now exists k0.
      * intros k' v' Hg.
        apply Hvals in Hg as [Hg|(k0 & Hin & Hs & Hr & Hg)]; [now left|].
        right. exists k0. repeat split; [now right|assumption..].
Qed.

(** The summary sub-map of explain, for every dictionary of parameters:
    it is built without error and holds no key twice; its keys are the
    keys of the parameters that start with "summary.", each with every
    occurrence of "summary." removed; each of its values is the value of
    such a parameter; and it is empty when no key has the prefix. *)
Theorem summary_params_characterized (model_params : Dict.t PyObject) :
  exists summary_params : Dict.t PyObject,
    summary_params_of model_params = Return summary_params /\
    Dict.wf summary_params /\
    (forall k' : string,
       In k' (Dict.keys summary_params) <->
       exists k, In k (Dict.keys model_params) /\
                 Str.startswith k "summary." = true /\
                 Str.replace k "summary." "" = k') /\
    (forall (k' : string) (v : PyObject),
       Dict.get summary_params k' = Some v ->
       exists k, Str.startswith k "summary." = true /\
                 Str.replace k "summary." "" = k' /\
                 Dict.get model_params k = Some v) /\
    ((forall k, In k (Dict.keys model_params) ->
                Str.startswith k "summary." = false) ->
     summary_params = []).
Proof.
  destruct (summary_loop_returns (Dict.keys model_params) model_params []
              (fun k H => H)) as [r Hr].
  exists r. split; [exact Hr|].
  apply summary_loop_inv in Hr as (Hwf & Hkeys & Hvals).
  split; [apply Hwf; constructor|]. split; [|split].
  - intros k'. rewrite Hkeys. split.
    + intros [[]|H]. exact H.
    + intros H. now right.
  - intros k' v Hg. apply Hvals in Hg as [Hg|(k & _ & Hs & Hk & Hg)].
    + discriminate.
    + now exists k.
  - intros Hnone. destruct r as [|[k' v'] r]; [reflexivity|].
    destruct (proj1 (Hkeys k') (or_introl eq_refl))
      as [[]|(k & Hin & Hs & _)].
    rewrite (Hnone k Hin) in Hs. discriminate.
Qed.

End Dispatch.

(** ** Runs on the small runtime *)
Module DemoRuns.
Import Demo.

(** The names the specification gives as examples. *)
Example select_XGBoost : select_train_func "XGBoost" = xgboost_train.
Proof. reflexivity. Qed.

Example select_xgBoost1 : select_train_func "xgBoost1" = xgboost_train.
Proof. reflexivity. Qed.

Example select_linear : select_train_func "linear" = tf_train.
Proof. reflexivity. Qed.

Example select_DNNClassifier : select_train_func "DNNClassifier" = tf_train.
Proof. reflexivity. Qed.

Example metrics_Accuracy_F1 :
  validation_metrics_of [("validation.metrics", "Accuracy,F1")]
  = ["Accuracy"; "F1"].
Proof. reflexivity. Qed.

Example metrics_default : validation_metrics_of [("max_depth", "3")] = ["Accuracy"].
Proof. reflexivity. Qed.

(** Show-train on the stored model "m1". *)
Example show_train_m1 :
  submit_local_show_train "db" "m1" start
  = (Return tt,
     {| world := 0;
        stdout := ["Model|Train Statement"; "m1|SELECT * FROM t"];
        calls := [ call_read_metadata_from_db "db" "m1";
                   call_dump_strings [("m1", MetaStr "SELECT * FROM t")]
                     ["Model"; "Train Statement"] ] |}).
Proof. reflexivity. Qed.

Example show_train_untrained :
  fst (submit_local_show_train "db" "untrained" start)
  = Raise (ValueError "cannot find the train SQL statement").
Proof. reflexivity. Qed.

(** C1 at the name "XGBoost.gbtree". *)
Lemma train_selection_witness :
  exists kwargs,
    called (submit_local_train "db" "TO TRAIN" "SELECT * FROM t" ""
              "XGBoost.gbtree" "sqlflow/sqlflow:step" (obj "features") (obj "class")
              [("max_depth", obj "3")] [] [] "m1" "" "") start
    = [call_train xgboost_train kwargs].
Proof.
  apply (train_selection_by_lowercase_prefix "db" "TO TRAIN"
           "SELECT * FROM t" "" "XGBoost.gbtree" "sqlflow/sqlflow:step"
           (obj "features") (obj "class") [("max_depth", obj "3")] [] [] "m1"
           "" "" start).
  exists ".gbtree". reflexivity.
Defined.

(** C2 as stated fails: the stored model "dnn_text_label" has the
    deep-learning tag and a label that is not a feature column, and
    [submit_local_evaluate] raises [AssertionError] on it, not
    [NotImplementedError]. *)
Lemma evaluate_unsupported_type_counterexample :
  fst (Model_load_from_db "db" "dnn_text_label" (world start))
  = Return (trained TENSORFLOW (MetaStr "class")) /\
  get_type (trained TENSORFLOW (MetaStr "class")) <> XGBOOST /\
  fst (submit_local_evaluate "db" "TO EVALUATE" "SELECT * FROM t"
         "dnn_text_label" [] "result" "" start)
  = Raise AssertionError /\
  ~ (exists msg,
       fst (submit_local_evaluate "db" "TO EVALUATE" "SELECT * FROM t"
              "dnn_text_label" [] "result" "" start)
       = Raise (NotImplementedError msg)).
Proof.
  repeat split; try discriminate.
  intros [msg H]. discriminate H.
Qed.

(** C2 as amended, at the stored model "my_dnn_model". *)
Lemma unsupported_type_witness :
  fst (Model_load_from_db "db" "my_dnn_model" (world start))
  = Return (trained TENSORFLOW label_fc) /\
  get_type (trained TENSORFLOW label_fc) <> XGBOOST /\
  fst (submit_local_pred "db" "TO PREDICT" "SELECT * FROM t" "my_dnn_model"
         (obj "class") [] "result" "" start)
  = Raise (NotImplementedError "not implemented model type: 0").
Proof.
  split; [reflexivity|]. split; [discriminate|].
  apply (unsupported_type_not_implemented "db" "TO PREDICT" "SELECT * FROM t"
           "my_dnn_model" "result" "" start (trained TENSORFLOW label_fc));
    [reflexivity|discriminate].
Defined.

(** C7 at the stored model "my_xgb_model". *)
Lemma pred_witness :
  fst (Model_load_from_db "db" "my_xgb_model" (world start))
  = Return (trained XGB label_fc) /\
  get_type (trained XGB label_fc) = XGBOOST /\
  called (submit_local_pred "db" "TO PREDICT" "SELECT * FROM t"
            "my_xgb_model" (obj "class") [] "result" "") start
  = [ call_load_from_db "db" "my_xgb_model";
      call_xgboost_pred "db" "SELECT * FROM t" "result" (obj "class")
        (trained XGB label_fc) ].
Proof.
  split; [reflexivity|]. split; [reflexivity|].
  apply (pred_calls_xgboost_pred "db" "TO PREDICT" "SELECT * FROM t"
           "my_xgb_model" (obj "class") [] "result" "" start
           (trained XGB label_fc)); reflexivity.
Defined.

(** C8 on the runtime that records what the evaluate routine receives:
    at the stored model "xgb_text_label", whose label is a string, and at
    "my_xgb_model", whose label column has the field descriptors "class"
    and "weight"; after the run the routine has been run once, with the
    name "class" and the two metrics. *)
Lemma evaluate_label_witness :
  (fst (@Model_load_from_db DemoRecording.base DemoRecording.collaborators
          "db" "xgb_text_label" (world DemoRecording.start))
   = Return (DemoRecording.stored XGB (MetaStr "class")) /\
   @submit_local_evaluate DemoRecording.base DemoRecording.collaborators
     "db" "TO EVALUATE" "SELECT * FROM t" "xgb_text_label" [] "result" ""
     DemoRecording.start
   = (Raise AssertionError,
      {| world := ([] : @World DemoRecording.base);
         stdout := [];
         calls := [call_load_from_db "db" "xgb_text_label"] |})) /\
  (fst (@Model_load_from_db DemoRecording.base DemoRecording.collaborators
          "db" "my_xgb_model" (world DemoRecording.start))
   = Return (DemoRecording.stored XGB label_fc) /\
   @submit_local_evaluate DemoRecording.base DemoRecording.collaborators
     "db" "TO EVALUATE" "SELECT * FROM t" "my_xgb_model"
     [("validation.metrics", "Accuracy,F1")] "result" ""
     DemoRecording.start
   = (Return tt,
      {| world := ([("class", ["Accuracy"; "F1"])] : @World DemoRecording.base);
         stdout := [];
         calls :=
           [ call_load_from_db "db" "my_xgb_model";
             call_xgboost_evaluate "db" "SELECT * FROM t" "result"
               (DemoRecording.stored XGB label_fc) "class"
               ["Accuracy"; "F1"] ] |})).
Proof.
  split; (split; [reflexivity|]).
  - refine (eq_trans
              (proj1 (@evaluate_label_feature_column DemoRecording.base
                        DemoRecording.collaborators "db" "TO EVALUATE"
                        "SELECT * FROM t" "xgb_text_label" [] "result" ""
                        DemoRecording.start
                        (DemoRecording.stored XGB (MetaStr "class"))
                        eq_refl) eq_refl) _).
    reflexivity.
  - refine (eq_trans
              (proj1 (proj2 (proj2
                 (proj2 (@evaluate_label_feature_column DemoRecording.base
                           DemoRecording.collaborators "db" "TO EVALUATE"
                           "SELECT * FROM t" "my_xgb_model"
                           [("validation.metrics", "Accuracy,F1")] "result"
                           "" DemoRecording.start
                           (DemoRecording.stored XGB label_fc) eq_refl)
                    {| FeatureColumn.get_field_desc :=
                         [ {| FieldDesc.name := "class" |};
                           {| FieldDesc.name := "weight" |} ] |}
                    eq_refl)))
                 {| FieldDesc.name := "class" |}
                 [ {| FieldDesc.name := "weight" |} ] eq_refl eq_refl) _).
    reflexivity.
Defined.

(** C4 at the parameters of the specification's example. *)
Lemma evaluate_metrics_witness :
  Dict.get [("validation.metrics", "Accuracy,F1")] "validation.metrics"
  = Some "Accuracy,F1" /\
  validation_metrics_of [("validation.metrics", "Accuracy,F1")]
  = Str.split "Accuracy,F1" ",".
Proof.
  split; [reflexivity|].
  apply (evaluate_metrics_list "db" "TO EVALUATE" "SELECT * FROM t"
           "my_xgb_model" [("validation.metrics", "Accuracy,F1")] "result" ""
           start).
  reflexivity.
Defined.

(** C10 at parameters with an empty "validation.metrics". *)
Lemma evaluate_metrics_empty_witness :
  Dict.get [("validation.metrics", "")] "validation.metrics" = Some "" /\
  validation_metrics_of [("validation.metrics", "")] = [""].
Proof.
  split; [reflexivity|].
  apply (evaluate_metrics_of_empty_value [("validation.metrics", "")]).
  reflexivity.
Defined.

(** C6 at the stored model "m1". *)
Lemma show_train_witness :
  fst (read_metadata_from_db "db" "m1" (world start))
  = Return (model_meta (trained XGB label_fc)) /\
  called (submit_local_show_train "db" "m1") start
  = [ call_read_metadata_from_db "db" "m1";
      call_dump_strings [("m1", MetaStr "SELECT * FROM t")]
        ["Model"; "Train Statement"] ].
Proof.
  split; [reflexivity|].
  apply (show_train_behaviour "db" "m1" start
           (model_meta (trained XGB label_fc)));
    [reflexivity|reflexivity|discriminate|discriminate].
Defined.

(** C9 at two states that differ in the world and in what was printed
    before. *)
Lemma show_train_deterministic_witness :
  fst (read_metadata_from_db "db" "m1" (world start))
  = fst (read_metadata_from_db "db" "m1" (world busy)) /\
  printed (submit_local_show_train "db" "m1") start
  = printed (submit_local_show_train "db" "m1") busy.
Proof.
  split; [reflexivity|].
  apply (show_train_deterministic "db" "m1" start busy).
  reflexivity.
Defined.

(** The summary parameters of the specification's example are those the
    specification describes. *)
Lemma summary_params_witness :
  Dict.wf [("summary.plot_type", obj "bar"); ("other", obj "x")] /\
  summary_params_of [("summary.plot_type", obj "bar"); ("other", obj "x")]
  = Return [("plot_type", obj "bar")].
Proof.
  assert (Hwf : Dict.wf [("summary.plot_type", obj "bar"); ("other", obj "x")]).
  { repeat constructor; simpl; intuition discriminate. }
  split; [exact Hwf|].
  apply (summary_params_meets_spec
           [("summary.plot_type", obj "bar"); ("other", obj "x")] Hwf).
  intros k [<-|[<-|[]]] _; reflexivity.
Defined.

(** Explain on the stored model "my_xgb_model". *)
Lemma explain_witness :
  called (submit_local_explain "db" "TO EXPLAIN" "SELECT * FROM t"
            "my_xgb_model" [("summary.plot_type", obj "bar")] "result"
            "TreeExplainer" "") start
  = [ call_load_from_db "db" "my_xgb_model";
      call_xgboost_explain "db" "SELECT * FROM t" "TreeExplainer"
        [("plot_type", obj "bar")] "result" (trained XGB label_fc) ].
Proof.
  apply (explain_calls_xgboost_explain "db" "TO EXPLAIN" "SELECT * FROM t"
           "my_xgb_model" [("summary.plot_type", obj "bar")] "result"
           "TreeExplainer" "" start (trained XGB label_fc)
           [("plot_type", obj "bar")]); reflexivity.
Defined.

(** Show-train on "m1", twice in a row. *)
Lemma show_train_twice_witness :
  stdout (snd (submit_local_show_train "db" "m1"
                 (snd (submit_local_show_train "db" "m1" start))))
  = [ "Model|Train Statement"; "m1|SELECT * FROM t";
      "Model|Train Statement"; "m1|SELECT * FROM t" ].
Proof.
  refine (eq_trans (show_train_twice "db" "m1" start _) _); reflexivity.
Defined.

(** A model the registry does not hold: predict stops at the load. *)
Lemma load_failure_witness :
  fst (Model_load_from_db "db" "nope" (world start))
  = Raise (ExternalError "model not found") /\
  submit_local_pred "db" "TO PREDICT" "SELECT * FROM t" "nope" (obj "class")
    [] "result" "" start
  = (Raise (ExternalError "model not found"),
     {| world := 0; stdout := []; calls := [call_load_from_db "db" "nope"] |}).
Proof.
  split; [reflexivity|].
  refine (eq_trans
            (proj1 (load_failure_passes_through "db" "TO PREDICT"
                      "SELECT * FROM t" "nope" "result" "" start
                      (ExternalError "model not found") eq_refl)
               (obj "class") []) _).
  reflexivity.
Defined.

(** Show-train on a model the registry does not hold. *)
Lemma show_train_read_failure_witness :
  fst (read_metadata_from_db "db" "nope" (world busy))
  = Raise (ExternalError "model not found") /\
  stdout (snd (submit_local_show_train "db" "nope" busy)) = stdout busy.
Proof.
  split; [reflexivity|].
  apply (show_train_read_failure "db" "nope" busy
           (ExternalError "model not found")).
  reflexivity.
Defined.

(** Evaluate on the stored model "dnn_no_fields". *)
Lemma evaluate_without_field_descriptor_witness :
  fst (Model_load_from_db "db" "dnn_no_fields" (world start))
  = Return (trained TENSORFLOW
              (MetaFeatureColumn {| FeatureColumn.get_field_desc := [] |})) /\
  submit_local_evaluate "db" "TO EVALUATE" "SELECT * FROM t"
    "dnn_no_fields" [] "result" "" start
  = (Raise IndexError, loaded "db" "dnn_no_fields" start).
Proof.
  split; [reflexivity|].
  apply (evaluate_without_field_descriptor "db" "TO EVALUATE"
           "SELECT * FROM t" "dnn_no_fields" [] "result" "" start
           (trained TENSORFLOW
              (MetaFeatureColumn {| FeatureColumn.get_field_desc := [] |}))
           {| FeatureColumn.get_field_desc := [] |}); reflexivity.
Defined.

(** Evaluate on the stored model "my_xgb_model". *)
Lemma evaluate_outcome_witness :
  fst (Model_load_from_db "db" "my_xgb_model" (world start))
  = Return (trained XGB label_fc) /\
  world (snd (submit_local_evaluate "db" "TO EVALUATE" "SELECT * FROM t"
                "my_xgb_model" [("validation.metrics", "Accuracy,F1")]
                "result" "" start))
  = snd (xgboost_evaluate "db" "SELECT * FROM t" "result"
           (trained XGB label_fc) "class"
           (validation_metrics_of [("validation.metrics", "Accuracy,F1")])
           (snd (Model_load_from_db "db" "my_xgb_model" (world start)))).
Proof.
  split; [reflexivity|].
  apply (evaluate_outcome "db" "TO EVALUATE" "SELECT * FROM t"
           "my_xgb_model" [("validation.metrics", "Accuracy,F1")]
           "result" "" start (trained XGB label_fc)
           {| FeatureColumn.get_field_desc :=
                [ {| FieldDesc.name := "class" |};
                  {| FieldDesc.name := "weight" |} ] |}
           {| FieldDesc.name := "class" |}
           [ {| FieldDesc.name := "weight" |} ]); reflexivity.
Defined.

(** Explain on the stored model "my_xgb_model", with parameters whose keys
    collide once "summary." is removed. *)
Lemma explain_outcome_witness :
  fst (Model_load_from_db "db" "my_xgb_model" (world start))
  = Return (trained XGB label_fc) /\
  exists summary_params,
    summary_params_of [("summary.x", obj "1"); ("summary.summary.x", obj "2")]
    = Return summary_params /\
    called (submit_local_explain "db" "TO EXPLAIN" "SELECT * FROM t"
              "my_xgb_model"
              [("summary.x", obj "1"); ("summary.summary.x", obj "2")]
              "result" "TreeExplainer" "") start
    = [ call_load_from_db "db" "my_xgb_model";
        call_xgboost_explain "db" "SELECT * FROM t" "TreeExplainer"
          summary_params "result" (trained XGB label_fc) ].
Proof.
  split; [reflexivity|].
  assert (Hload : fst (Model_load_from_db "db" "my_xgb_model" (world start))
                  = Return (trained XGB label_fc)) by reflexivity.
  assert (Htype : get_type (trained XGB label_fc) = XGBOOST) by reflexivity.
  destruct (explain_outcome "db" "TO EXPLAIN" "SELECT * FROM t"
              "my_xgb_model"
              [("summary.x", obj "1"); ("summary.summary.x", obj "2")]
              "result" "TreeExplainer" "" start (trained XGB label_fc)
              Hload Htype) as (sp & Hsp & Hcalled & _).
  exists sp. split; assumption.
Defined.

(** Predict on the stored model "my_dnn_model" stops after the load. *)
Lemma unsupported_type_stops_witness :
  fst (Model_load_from_db "db" "my_dnn_model" (world start))
  = Return (trained TENSORFLOW label_fc) /\
  get_type (trained TENSORFLOW label_fc) <> XGBOOST /\
  snd (submit_local_pred "db" "TO PREDICT" "SELECT * FROM t" "my_dnn_model"
         (obj "class") [] "result" "" start)
  = {| world := 0; stdout := [];
       calls := [call_load_from_db "db" "my_dnn_model"] |}.
Proof.
  assert (Htype : get_type (trained TENSORFLOW label_fc) <> XGBOOST)
    by discriminate.
  split; [reflexivity|]. split; [exact Htype|].
  refine (eq_trans
            (proj1 (unsupported_type_stops_after_load "db" "TO PREDICT"
                      "SELECT * FROM t" "my_dnn_model" "result" "" start
                      (trained TENSORFLOW label_fc) eq_refl Htype)
               (obj "class") []) _).
  reflexivity.
Defined.

End DemoRuns.
